(** * The Claude API route and the GPT landing page

    A shallow embedding of
    - [src/app/api/(apps)/claude/route.ts] (the [POST] handler), and
    - [src/app/(apps)/gpt/page.tsx] (the [Page] component and its
      [metadata]),
    together with the properties of both that the specification states.

    The handler is a straight-line sequence of calls into the platform
    (request body, module loader, built-ins) and into external services
    (authentication, the model SDK, the database helpers), wrapped in
    one [try]/[catch].  It is embedded in a state-and-exception monad:
    the state carries the history of external calls, each with its
    outcome, and the database; an exception is a thrown JavaScript
    value. *)

From stdpp Require Import base option list strings gmap.
From Stdlib Require Import ZArith.

Local Open Scope Z_scope.
Local Open Scope string_scope.

(* ===================================================================== *)
(** * JavaScript values                                                   *)
(* ===================================================================== *)

(** The values the handler passes around.  An object keeps its
    properties in insertion order, which is the order [JSON.stringify]
    prints them in.  A function is known by name only; applying it is
    left to the platform.  The handler never computes on a number, it
    only compares a status with 401 and passes 2000 and the credit
    amount along, so a number is represented by an integer. *)
#[local] Set Warnings "-register-all".
Inductive JsVal : Type :=
| JUndefined
| JNull
| JBool (b : bool)
| JNum (n : Z)
| JStr (s : string)
| JArr (elems : list JsVal)
| JObj (props : list (string * JsVal))
| JFun (name : string).

(** What a [throw] carries: an instance of [Error] with its [message]
    property, or any other value. *)
Inductive Thrown : Type :=
| ErrorInstance (message : JsVal)
| NonError (v : JsVal).

Definition TypeError (msg : string) : Thrown := ErrorInstance (JStr msg).

(** The outcome of an evaluation step: [inl] is a throw. *)
Abbreviation Completion A := (Thrown + A)%type.

Fixpoint assoc (k : string) (props : list (string * JsVal)) : option JsVal :=
  match props with
  | [] => None
  | (k', v) :: rest => if String.eqb k k' then Some v else assoc k rest
  end.

(** [v.k] and [v[0]] (as [js_get v "0"]).  Reading a property of
    [undefined] or [null] throws a [TypeError]; reading a missing
    property gives [undefined].  Only the keys the two source files use
    are meant: [toolPath], [email], [aiModel], [systemMessage],
    [paywall], [credits], [slug], [company], [theme], ... and [0]; none
    of them is inherited from a built-in prototype. *)
Definition js_get (v : JsVal) (k : string) : Completion JsVal :=
  match v with
  | JUndefined =>
      inl (TypeError ("Cannot read properties of undefined (reading '" +:+ k +:+ "')"))
  | JNull =>
      inl (TypeError ("Cannot read properties of null (reading '" +:+ k +:+ "')"))
  | JObj props => inr (default JUndefined (assoc k props))
  | JArr elems =>
      inr (if String.eqb k "0" then default JUndefined (head elems) else JUndefined)
  | JStr s =>
      inr (if String.eqb k "0"
           then match s with
                | EmptyString => JUndefined
                | String c _ => JStr (String c EmptyString)
                end
           else JUndefined)
  | JBool _ | JNum _ | JFun _ => inr JUndefined
  end.

(** [a === true]. *)
Definition strict_eq_true (a : JsVal) : bool :=
  match a with
  | JBool true => true
  | _ => false
  end.

(* ===================================================================== *)
(** * Requests, responses, the model SDK, the database                    *)
(* ===================================================================== *)

(** A request: what identifies the caller (cookies, headers) and the
    text of the body. *)
Record Request : Type := {
  credentials : string;
  body_text : string;
}.

(** A [NextResponse]: the status and the body text. *)
Record Response : Type := {
  status : Z;
  body : string;
}.

(** The fields passed to [new ChatAnthropic({...})]. *)
Record ChatFields : Type := {
  model : JsVal;
  maxTokens : Z;
}.

(** One [invoke] of a chat bound to a structured-output schema: the
    chat's configuration, the schema given to [withStructuredOutput]
    and the list of (role, text) messages. *)
Record ModelCall : Type := {
  chat : ChatFields;
  schema : JsVal;
  messages : list (string * string);
}.

(** Modelled from the spec: the database helpers of [@/lib/db/mutations]
    are not among the sources.  The spec calls [uploadToSupabase] a
    "database insert" that "persists the result to a hosted database"
    and "writes one row": a row is made of the four arguments of the
    call. *)
Record Generation : Type := {
  gen_input : JsVal;
  gen_output : JsVal;
  gen_toolPath : JsVal;
  gen_model : JsVal;
}.

(** Modelled from the spec: [reduceUserCredits] "decrements a credit
    balance".  The balance arithmetic is not the handler's, so the
    database keeps the decrements applied: the account charged and the
    amount. *)
Record Debit : Type := {
  debit_email : JsVal;
  debit_credits : JsVal;
}.

Record Db : Type := {
  generations : list Generation;
  debits : list Debit;
}.

(** A module namespace: the exports by name. *)
Abbreviation Exports := (gmap string JsVal).

(** The binding [name] of a module namespace; [undefined] when the
    module does not export it. *)
Definition export (m : Exports) (name : string) : JsVal :=
  default JUndefined (m !! name).

(* ===================================================================== *)
(** * The environment of a run                                            *)
(* ===================================================================== *)

(** What is the same for every request: the built-ins and the modules
    of the deployed application. *)
Record Platform : Type := {
  (** [JSON.parse] of a body text, as [request.json()] does it. *)
  JSON_parse : string -> Completion JsVal;
  (** [decodeURIComponent(v)]; throws [URIError] on a malformed escape. *)
  decodeURIComponent : JsVal -> Completion string;
  (** [String(v)]; may throw through a user-defined [toString]. *)
  js_String : JsVal -> Completion string;
  (** [JSON.stringify(v)] of an object. *)
  JSON_stringify : JsVal -> string;
  (** [import(path)]: the exports of the module, or the load fails. *)
  import : string -> Completion Exports;
  (** Applying the function of that name to one argument. *)
  apply_function : string -> JsVal -> Completion JsVal;
}.

(** What a run meets outside the application: the outcome of each call
    into a service. *)
Record Services : Type := {
  (** [authMiddleware(request)] of [@/lib/middleware/authMiddleware]
      (not among the sources): a response, or it throws. *)
  authMiddleware_outcome : Request -> Completion Response;
  (** Whether [new ChatAnthropic(fields)] throws. *)
  ChatAnthropic_error : ChatFields -> option Thrown;
  (** Whether [chat.withStructuredOutput(schema)] throws. *)
  withStructuredOutput_error : ChatFields -> JsVal -> option Thrown;
  (** The model's answer to an [invoke], or the call throws. *)
  invoke_outcome : ModelCall -> Completion JsVal;
  (** What [uploadToSupabase] resolves to, or that it throws. *)
  uploadToSupabase_outcome :
    JsVal -> JsVal -> JsVal -> JsVal -> Db -> Completion JsVal;
  (** Whether [reduceUserCredits] throws. *)
  reduceUserCredits_outcome : JsVal -> JsVal -> Db -> Completion unit;
}.

(** The history of a run: every call that leaves the handler, in the
    order made, with its arguments and its outcome. *)
Inductive Event : Type :=
| EvAuthMiddleware (request : Request) (r : Completion Response)
| EvRequestJson (r : Completion JsVal)
| EvImport (path : string) (r : Completion Exports)
| EvInvoke (call : ModelCall) (r : Completion JsVal)
| EvConsoleLog (label : string) (v : JsVal)
| EvUploadToSupabase (input output toolPath aiModel : JsVal) (r : Completion JsVal)
| EvReduceUserCredits (email credits : JsVal) (r : Completion unit)
| EvConsoleError (label : string) (error : Thrown).

Record St : Type := {
  trace : list Event;
  db : Db;
}.

Definition start (d : Db) : St := {| trace := []; db := d |}.

(* ===================================================================== *)
(** * The monad                                                           *)
(* ===================================================================== *)

Definition M (A : Type) : Type := St -> St * Completion A.

Definition ret {A} (a : A) : M A := fun st => (st, inr a).

Definition throw {A} (t : Thrown) : M A := fun st => (st, inl t).

Definition bind {A B} (m : M A) (k : A -> M B) : M B :=
  fun st =>
    match m st with
    | (st', inr a) => k a st'
    | (st', inl t) => (st', inl t)
    end.

Notation "'let*' x := c 'in' k" := (bind c (fun x => k))
  (at level 10, x name, c at level 200, k at level 200,
   format "'[v' 'let*'  x  :=  c  'in'  '/' k ']'").

(** A step that touches nothing outside. *)
Definition eval {A} (r : Completion A) : M A := fun st => (st, r).

(** A call that is written to the history, with its outcome. *)
Definition record_call {A} (mk : Completion A -> Event) (r : Completion A) : M A :=
  fun st => ({| trace := trace st ++ [mk r]; db := db st |}, r).

(** [try { body } catch (error) { handler(error) }]. *)
Definition try_catch {A} (body : M A) (handler : Thrown -> M A) : M A :=
  fun st =>
    match body st with
    | (st', inr a) => (st', inr a)
    | (st', inl t) => handler t st'
    end.

Definition or_throw (e : option Thrown) : Completion unit :=
  match e with
  | Some t => inl t
  | None => inr tt
  end.

(* ===================================================================== *)
(** * route.ts                                                            *)
(* ===================================================================== *)

Section Route.

Variable pf : Platform.
Variable sv : Services.

Definition authMiddleware (request : Request) : M Response :=
  record_call (EvAuthMiddleware request) (authMiddleware_outcome sv request).

(** [request.json()]. *)
Definition request_json (request : Request) : M JsVal :=
  record_call EvRequestJson (JSON_parse pf (body_text request)).

(** [const { name } = await import(path)]. *)
Definition import_export (path name : string) : M JsVal :=
  let* m := record_call (EvImport path) (import pf path) in
  ret (export m name).

(** [f(arg)]. *)
Definition js_call (callee : string) (f arg : JsVal) : Completion JsVal :=
  match f with
  | JFun name => apply_function pf name arg
  | _ => inl (TypeError (callee +:+ " is not a function"))
  end.

Definition new_ChatAnthropic (fields : ChatFields) : M ChatFields :=
  let* _ := eval (or_throw (ChatAnthropic_error sv fields)) in
  ret fields.

Definition withStructuredOutput (c : ChatFields) (functionCall : JsVal)
  : M (list (string * string) -> ModelCall) :=
  let* _ := eval (or_throw (withStructuredOutput_error sv c functionCall)) in
  ret (fun msgs => {| chat := c; schema := functionCall; messages := msgs |}).

Definition invoke (call : ModelCall) : M JsVal :=
  record_call (EvInvoke call) (invoke_outcome sv call).

Definition console_log (label : string) (v : JsVal) : M unit :=
  fun st => ({| trace := trace st ++ [EvConsoleLog label v]; db := db st |}, inr tt).

Definition console_error (label : string) (error : Thrown) : M unit :=
  fun st => ({| trace := trace st ++ [EvConsoleError label error]; db := db st |}, inr tt).

(** Modelled from the spec: [uploadToSupabase] is not among the sources.
    "persists the result to a hosted database", "writes one row": a call
    that succeeds has appended one row; one that throws has written
    nothing.  What it resolves to is left to the service. *)
Definition uploadToSupabase (input output toolPath aiModel : JsVal) : M JsVal :=
  fun st =>
    let r := uploadToSupabase_outcome sv input output toolPath aiModel (db st) in
    let row := {| gen_input := input; gen_output := output;
                  gen_toolPath := toolPath; gen_model := aiModel |} in
    ({| trace := trace st ++ [EvUploadToSupabase input output toolPath aiModel r];
        db := match r with
              | inr _ => {| generations := generations (db st) ++ [row];
                            debits := debits (db st) |}
              | inl _ => db st
              end |},
     r).

(** Modelled from the spec: [reduceUserCredits] is not among the
    sources.  "decrements a credit balance": a call that succeeds has
    applied one decrement of [credits] to the account of [email]; one
    that throws has applied none. *)
Definition reduceUserCredits (email credits : JsVal) : M unit :=
  fun st =>
    let r := reduceUserCredits_outcome sv email credits (db st) in
    ({| trace := trace st ++ [EvReduceUserCredits email credits r];
        db := match r with
              | inr _ => {| generations := generations (db st);
                            debits := debits (db st) ++
                                      [{| debit_email := email; debit_credits := credits |}] |}
              | inl _ => db st
              end |},
     r).

(** [new NextResponse(JSON.stringify(v), { status })]. *)
Definition NextResponse_json (v : JsVal) (code : Z) : Response :=
  {| status := code; body := JSON_stringify pf v |}.

(** The [try] block, lines 32-80. *)
Definition POST_try (request : Request) : M Response :=
  let* requestBody := request_json request in
  let* rawToolPath := eval (js_get requestBody "toolPath") in
  let* toolPath := eval (decodeURIComponent pf rawToolPath) in
  let* toolConfig := import_export ("@/app/" +:+ toolPath +:+ "/toolConfig") "toolConfig" in
  let* functionSchema := import_export ("@/app/" +:+ toolPath +:+ "/schema") "functionSchema" in
  let* generatePrompt := import_export ("@/app/" +:+ toolPath +:+ "/prompt") "generatePrompt" in
  let* functionCall := eval (js_get functionSchema "0") in
  let* prompt := eval (js_call "generatePrompt" generatePrompt requestBody) in
  let* aiModel := eval (js_get toolConfig "aiModel") in
  let* chat := new_ChatAnthropic {| model := aiModel; maxTokens := 2000 |} in
  let* chatWithStructuredOutput := withStructuredOutput chat functionCall in
  let* systemMessage := eval (js_get toolConfig "systemMessage") in
  let* systemText := eval (js_String pf systemMessage) in
  let* humanText := eval (js_String pf prompt) in
  let* responseData := invoke (chatWithStructuredOutput
                                 [("system", systemText); ("human", humanText)]) in
  let* _ := console_log "Response from Anthropic:" responseData in
  let* toolPath' := eval (js_get toolConfig "toolPath") in
  let* aiModel' := eval (js_get toolConfig "aiModel") in
  let* supabaseResponse := uploadToSupabase requestBody responseData toolPath' aiModel' in
  let* paywall := eval (js_get toolConfig "paywall") in
  let* _ := (if strict_eq_true paywall
             then let* email := eval (js_get requestBody "email") in
                  let* credits := eval (js_get toolConfig "credits") in
                  reduceUserCredits email credits
             else ret tt) in
  let* first := eval (js_get supabaseResponse "0") in
  let* slug := eval (js_get first "slug") in
  ret (NextResponse_json (JObj [("slug", slug)]) 200).

(** [error instanceof Error ? error.message : "An unknown error occurred"]. *)
Definition error_message (error : Thrown) : JsVal :=
  match error with
  | ErrorInstance message => message
  | NonError _ => JStr "An unknown error occurred"
  end.

(** The [catch] block, lines 81-91. *)
Definition POST_catch (error : Thrown) : M Response :=
  let* _ := console_error "Error in Claude route:" error in
  ret (NextResponse_json
         (JObj [("status", JStr "Error"); ("message", error_message error)])
         500).

Definition POST (request : Request) : M Response :=
  let* authResponse := authMiddleware request in
  if (status authResponse =? 401)%Z then ret authResponse
  else try_catch (POST_try request) POST_catch.

End Route.

(* ===================================================================== *)
(** * page.tsx                                                            *)
(* ===================================================================== *)

(** The components the page imports. *)
Inductive ComponentRef : Type :=
| Navbar        (* @/components/navbars/Navbar-1 *)
| Hero          (* @/components/heros/HeroGPT *)
| Testimonials  (* @/components/testimonials/Testimonials-1 *)
| Pricing       (* @/components/pricing/Pricing-3 *)
| How           (* @/components/how/How-2 *)
| FAQ           (* @/components/faqs/FAQ-1 *)
| CTA           (* @/components/ctas/CTA-3 *)
| Footer.       (* @/components/footers/Footer-1 *)

(** A React element, as a JSX expression builds it: the page creates
    the elements of its children, it does not render them. *)
Inductive Element : Type :=
| Fragment (children : list Element)
| Host (tag : string) (attrs : list (string * JsVal)) (children : list Element)
| Component (c : ComponentRef) (props : list (string * JsVal)).

Section GptPage.

(** [import { toolConfig } from "./toolConfig"]: the static
    configuration object of the tool, which is not among the sources. *)
Variable toolConfig : JsVal.

(** [export const metadata = { ... }], lines 11-20. *)
Definition metadata : M JsVal :=
  let* meta := eval (js_get toolConfig "metadata") in
  let* title := eval (js_get meta "title") in
  let* meta := eval (js_get toolConfig "metadata") in
  let* description := eval (js_get meta "description") in
  let* meta := eval (js_get toolConfig "metadata") in
  let* og_image := eval (js_get meta "og_image") in
  let* meta := eval (js_get toolConfig "metadata") in
  let* canonical := eval (js_get meta "canonical") in
  ret (JObj [("title", title);
             ("description", description);
             ("openGraph", JObj [("images", JArr [og_image])]);
             ("alternates", JObj [("canonical", canonical)])]).

(** [export default function Page()], lines 22-43.  The attribute and
    the props are read in the order the JSX lists them. *)
Definition Page : M Element :=
  let* company := eval (js_get toolConfig "company") in
  let* theme := eval (js_get company "theme") in
  let* companyConfig := eval (js_get toolConfig "company") in
  let* navbarConfig := eval (js_get toolConfig "navbarLanding") in
  let* companyConfig' := eval (js_get toolConfig "company") in
  let* footerConfig := eval (js_get toolConfig "footerLanding") in
  ret (Fragment
         [Host "div" [("data-theme", theme)]
            [Component Navbar [("companyConfig", companyConfig);
                               ("navbarConfig", navbarConfig)];
             Component Hero [];
             Component How [];
             Component Pricing [];
             Component Testimonials [];
             Component CTA [];
             Component FAQ [];
             Component Footer [("companyConfig", companyConfig');
                               ("footerConfig", footerConfig)]]]).

End GptPage.

(** The components an element is made of, in document order. *)
Fixpoint components (e : Element) : list ComponentRef :=
  match e with
  | Fragment children => concat (map components children)
  | Host _ _ children => concat (map components children)
  | Component c _ => [c]
  end.

(* ===================================================================== *)
(** * Observations on a history                                           *)
(* ===================================================================== *)

Definition is_import (e : Event) : bool :=
  match e with EvImport _ _ => true | _ => false end.

Definition is_invoke (e : Event) : bool :=
  match e with EvInvoke _ _ => true | _ => false end.

Definition is_upload (e : Event) : bool :=
  match e with EvUploadToSupabase _ _ _ _ _ => true | _ => false end.

Definition is_reduce (e : Event) : bool :=
  match e with EvReduceUserCredits _ _ _ => true | _ => false end.

Definition is_console_error (e : Event) : bool :=
  match e with EvConsoleError _ _ => true | _ => false end.

(** What follows the first event of a kind. *)
Fixpoint events_after (kind : Event -> bool) (l : list Event) : list Event :=
  match l with
  | [] => []
  | e :: rest => if kind e then rest else events_after kind rest
  end.

(** The calls the specification names as the business logic: the model
    SDK invoke, the database insert and the credit decrement. *)
Definition is_external_effect (e : Event) : bool :=
  is_invoke e || is_upload e || is_reduce e.

(** The value a call of the [try] block threw, if it threw. *)
Definition thrown_by (e : Event) : option Thrown :=
  match e with
  | EvRequestJson (inl t) | EvImport _ (inl t) | EvInvoke _ (inl t)
  | EvUploadToSupabase _ _ _ _ (inl t) | EvReduceUserCredits _ _ (inl t) => Some t
  | _ => None
  end.

(** The last character of a text tells the three module files apart. *)
Fixpoint last_char (s : string) : option Ascii.ascii :=
  match s with
  | EmptyString => None
  | String c EmptyString => Some c
  | String _ rest => last_char rest
  end.

(** The last character of the path of an import. *)
Definition import_last_char (e : Event) : option Ascii.ascii :=
  match e with
  | EvImport path _ => last_char path
  | _ => None
  end.

(** The response the [catch] block builds for [error]. *)
Definition error_response (pf : Platform) (error : Thrown) : Response :=
  {| status := 500;
     body := JSON_stringify pf
               (JObj [("status", JStr "Error"); ("message", error_message error)]) |}.

(** The row [uploadToSupabase] writes for its four arguments. *)
Definition generation_row (input output toolPath aiModel : JsVal) : Generation :=
  {| gen_input := input; gen_output := output;
     gen_toolPath := toolPath; gen_model := aiModel |}.

(* ===================================================================== *)
(** * A concrete deployment                                               *)
(* ===================================================================== *)

(** One tool behind the route, [(apps)/claude], paywalled at 5 credits,
    and a second one, [(apps)/free], without a paywall; three callers.
    Quotation marks are left out of the texts. *)
Module Demo.

Definition claude_config : JsVal :=
  JObj [("toolPath", JStr "(apps)/claude");
        ("aiModel", JStr "claude-3-5-sonnet-20240620");
        ("systemMessage", JStr "You are a branding assistant.");
        ("paywall", JBool true);
        ("credits", JNum 5)].

(** [paywall] is the string, not the boolean. *)
Definition free_config : JsVal :=
  JObj [("toolPath", JStr "(apps)/free");
        ("aiModel", JStr "claude-3-haiku-20240307");
        ("systemMessage", JStr "You are a branding assistant.");
        ("paywall", JStr "true");
        ("credits", JNum 5)].

Definition name_schema : JsVal :=
  JObj [("name", JStr "brand_names"); ("parameters", JObj [("type", JStr "object")])].

Definition claude_body : JsVal :=
  JObj [("toolPath", JStr "%28apps%29%2Fclaude");
        ("email", JStr "ada@example.com");
        ("idea", JStr "a tea shop")].

Definition free_body : JsVal :=
  JObj [("toolPath", JStr "%28apps%29%2Ffree");
        ("email", JStr "ada@example.com");
        ("idea", JStr "a tea shop")].

Definition render (v : JsVal) : string :=
  match v with
  | JObj [(k, JStr s)] => "{" +:+ k +:+ ":" +:+ s +:+ "}"
  | JObj [(k1, JStr s1); (k2, JStr s2)] =>
      "{" +:+ k1 +:+ ":" +:+ s1 +:+ "," +:+ k2 +:+ ":" +:+ s2 +:+ "}"
  | _ => "{}"
  end.

Definition platform : Platform := {|
  JSON_parse text :=
    if String.eqb text "{toolPath:%28apps%29%2Fclaude,email:ada@example.com,idea:a tea shop}"
    then inr claude_body
    else if String.eqb text "{toolPath:%28apps%29%2Ffree,email:ada@example.com,idea:a tea shop}"
    then inr free_body
    else if String.eqb text "null" then inr JNull
    else inl (ErrorInstance (JStr "Unexpected end of JSON input"));
  decodeURIComponent v :=
    match v with
    | JStr s =>
        if String.eqb s "%28apps%29%2Fclaude" then inr "(apps)/claude"
        else if String.eqb s "%28apps%29%2Ffree" then inr "(apps)/free"
        else if String.eqb s "%" then inl (ErrorInstance (JStr "URI malformed"))
        else inr s
    | JUndefined => inr "undefined"
    | _ => inr "null"
    end;
  js_String v :=
    match v with
    | JStr s => inr s
    | JUndefined => inr "undefined"
    | _ => inr "[object Object]"
    end;
  JSON_stringify := render;
  import path :=
    if String.eqb path "@/app/(apps)/claude/toolConfig"
    then inr {[ "toolConfig" := claude_config ]}
    else if String.eqb path "@/app/(apps)/free/toolConfig"
    then inr {[ "toolConfig" := free_config ]}
    else if String.eqb path "@/app/(apps)/claude/schema"
    then inr {[ "functionSchema" := JArr [name_schema] ]}
    else if String.eqb path "@/app/(apps)/free/schema"
    then inr {[ "functionSchema" := JArr [name_schema] ]}
    else if String.eqb path "@/app/(apps)/claude/prompt"
    then inr {[ "generatePrompt" := JFun "generatePrompt" ]}
    else if String.eqb path "@/app/(apps)/free/prompt"
    then inr {[ "generatePrompt" := JFun "generatePrompt" ]}
    else inl (ErrorInstance (JStr ("Cannot find module '" +:+ path +:+ "'")));
  apply_function name arg :=
    match js_get arg "idea" with
    | inr (JStr idea) => inr (JStr ("Suggest names for " +:+ idea))
    | _ => inr (JStr "Suggest names")
    end;
|}.

Definition answer : JsVal := JObj [("names", JArr [JStr "Steep"; JStr "Leaf & Co"])].

Definition inserted : JsVal := JArr [JObj [("slug", JStr "steep-4f2a")]].

(** [session-ada] is signed in, [session-bob] is refused with 403,
    anybody else gets 401. *)
Definition auth (request : Request) : Completion Response :=
  if String.eqb (credentials request) "session-ada"
  then inr {| status := 200; body := "{}" |}
  else if String.eqb (credentials request) "session-bob"
  then inr {| status := 403; body := "{error:Forbidden}" |}
  else inr {| status := 401; body := "{error:Unauthorized}" |}.

(** Every service answers. *)
Definition services : Services := {|
  authMiddleware_outcome := auth;
  ChatAnthropic_error _ := None;
  withStructuredOutput_error _ _ := None;
  invoke_outcome _ := inr answer;
  uploadToSupabase_outcome _ _ _ _ _ := inr inserted;
  reduceUserCredits_outcome _ _ _ := inr tt;
|}.

(** The credit update fails. *)
Definition services_no_credit : Services := {|
  authMiddleware_outcome := auth;
  ChatAnthropic_error _ := None;
  withStructuredOutput_error _ _ := None;
  invoke_outcome _ := inr answer;
  uploadToSupabase_outcome _ _ _ _ _ := inr inserted;
  reduceUserCredits_outcome _ _ _ := inl (ErrorInstance (JStr "User not found"));
|}.

(** The model is down; what it throws is not an [Error]. *)
Definition services_no_model : Services := {|
  authMiddleware_outcome := auth;
  ChatAnthropic_error _ := None;
  withStructuredOutput_error _ _ := None;
  invoke_outcome _ := inl (NonError (JStr "overloaded"));
  uploadToSupabase_outcome _ _ _ _ _ := inr inserted;
  reduceUserCredits_outcome _ _ _ := inr tt;
|}.

Definition ada_claude : Request :=
  {| credentials := "session-ada";
     body_text := "{toolPath:%28apps%29%2Fclaude,email:ada@example.com,idea:a tea shop}" |}.

Definition ada_free : Request :=
  {| credentials := "session-ada";
     body_text := "{toolPath:%28apps%29%2Ffree,email:ada@example.com,idea:a tea shop}" |}.

(** Bob sends Ada's body. *)
Definition bob_claude : Request :=
  {| credentials := "session-bob";
     body_text := "{toolPath:%28apps%29%2Fclaude,email:ada@example.com,idea:a tea shop}" |}.

Definition stranger_claude : Request :=
  {| credentials := "";
     body_text := "{toolPath:%28apps%29%2Fclaude,email:ada@example.com,idea:a tea shop}" |}.

Definition empty_db : Db := {| generations := []; debits := [] |}.

Definition gpt_config : JsVal :=
  JObj [("company", JObj [("name", JStr "ChartGPT"); ("theme", JStr "anotherwrapper")]);
        ("navbarLanding", JObj [("bgColor", JStr "white")]);
        ("footerLanding", JObj [("bgColor", JStr "white")]);
        ("metadata", JObj [("title", JStr "GPT demo");
                           ("description", JStr "Generate with GPT");
                           ("og_image", JStr "/og.png");
                           ("canonical", JStr "/gpt")])].

Definition claude_call : ModelCall :=
  {| chat := {| model := JStr "claude-3-5-sonnet-20240620"; maxTokens := 2000 |};
     schema := name_schema;
     messages := [("system", "You are a branding assistant.");
                  ("human", "Suggest names for a tea shop")] |}.

Definition config_module : Exports := {[ "toolConfig" := claude_config ]}.

End Demo.

(* ===================================================================== *)
(** * The dashboard layout and the note box                               *)
(* ===================================================================== *)










(* ===================================================================== *)
(** * More observations and more deployments                              *)
(* ===================================================================== *)

Definition is_console_log (e : Event) : bool :=
  match e with EvConsoleLog _ _ => true | _ => false end.

(** The row a credit decrement leaves. *)
Definition debit_row (email credits : JsVal) : Debit :=
  {| debit_email := email; debit_credits := credits |}.

(** Variants of the deployment of [Demo] in which something is missing
    or down. *)
Module Cases.

(** The session store is down: [authMiddleware] itself throws. *)
Definition services_auth_down : Services := {|
  authMiddleware_outcome _ := inl (ErrorInstance (JStr "fetch failed"));
  ChatAnthropic_error := ChatAnthropic_error Demo.services;
  withStructuredOutput_error := withStructuredOutput_error Demo.services;
  invoke_outcome := invoke_outcome Demo.services;
  uploadToSupabase_outcome := uploadToSupabase_outcome Demo.services;
  reduceUserCredits_outcome := reduceUserCredits_outcome Demo.services;
|}.

(** The insert succeeds but resolves to no rows. *)
Definition services_no_rows : Services := {|
  authMiddleware_outcome := Demo.auth;
  ChatAnthropic_error := ChatAnthropic_error Demo.services;
  withStructuredOutput_error := withStructuredOutput_error Demo.services;
  invoke_outcome := invoke_outcome Demo.services;
  uploadToSupabase_outcome _ _ _ _ _ := inr (JArr []);
  reduceUserCredits_outcome := reduceUserCredits_outcome Demo.services;
|}.

(** The prompt module of the tool exports nothing. *)
Definition platform_no_prompt : Platform := {|
  JSON_parse := JSON_parse Demo.platform;
  decodeURIComponent := decodeURIComponent Demo.platform;
  js_String := js_String Demo.platform;
  JSON_stringify := JSON_stringify Demo.platform;
  import path :=
    if String.eqb path "@/app/(apps)/claude/prompt" then inr ∅
    else import Demo.platform path;
  apply_function := apply_function Demo.platform;
|}.

(** The schema module of the tool fails to load. *)
Definition platform_no_schema : Platform := {|
  JSON_parse := JSON_parse Demo.platform;
  decodeURIComponent := decodeURIComponent Demo.platform;
  js_String := js_String Demo.platform;
  JSON_stringify := JSON_stringify Demo.platform;
  import path :=
    if String.eqb path "@/app/(apps)/claude/schema"
    then inl (ErrorInstance (JStr "Cannot find module"))
    else import Demo.platform path;
  apply_function := apply_function Demo.platform;
|}.

Definition ada_null : Request :=
  {| credentials := "session-ada"; body_text := "null" |}.

Definition ok : Response := {| status := 200; body := "{}" |}.


(** The config of [Demo] for the page, without its metadata. *)
Definition gpt_config_no_metadata : JsVal :=
  JObj [("company", JObj [("name", JStr "ChartGPT"); ("theme", JStr "anotherwrapper")]);
        ("navbarLanding", JObj [("bgColor", JStr "white")]);
        ("footerLanding", JObj [("bgColor", JStr "white")])].

(** A body that names the tool and no account. *)
Definition anonymous_body : JsVal :=
  JObj [("toolPath", JStr "%28apps%29%2Fclaude"); ("idea", JStr "a tea shop")].

Definition platform_anonymous : Platform := {|
  JSON_parse text :=
    if String.eqb text "{toolPath:%28apps%29%2Fclaude,idea:a tea shop}"
    then inr anonymous_body
    else JSON_parse Demo.platform text;
  decodeURIComponent := decodeURIComponent Demo.platform;
  js_String := js_String Demo.platform;
  JSON_stringify := JSON_stringify Demo.platform;
  import := import Demo.platform;
  apply_function := apply_function Demo.platform;
|}.

Definition ada_anonymous : Request :=
  {| credentials := "session-ada";
     body_text := "{toolPath:%28apps%29%2Fclaude,idea:a tea shop}" |}.

End Cases.

Arguments js_get : simpl never.
Arguments js_call : simpl never.
Arguments export : simpl never.

(* ===================================================================== *)
(** * Running the handler symbolically                                    *)
(* ===================================================================== *)

(** One step of the handler: split on the outcome of the next call. *)
Ltac next_outcome :=
  match goal with
  | |- context [if Z.eqb ?a ?b then _ else _] =>
      destruct (Z.eqb_spec a b); cbn
  | |- context [if strict_eq_true ?v then _ else _] =>
      let E := fresh "E" in destruct (strict_eq_true v) eqn:E; cbn
  | |- context [match ?o with inl _ => _ | inr _ => _ end] =>
      let E := fresh "E" in destruct o eqn:E; cbn
  | |- context [match ?o with Some _ => _ | None => _ end] =>
      let E := fresh "E" in destruct o eqn:E; cbn
  end.

Ltac unfold_handler :=
  unfold POST, POST_try, POST_catch, try_catch, import_export, new_ChatAnthropic,
    withStructuredOutput, authMiddleware, request_json, invoke, console_log,
    console_error, uploadToSupabase, reduceUserCredits, record_call, eval, or_throw,
    bind, ret, start; cbn.

(** A step whose outcome is known. *)
Ltac known_outcome :=
  match goal with
  | H : ?o = _ |- context [match ?o with inl _ => _ | inr _ => _ end] => rewrite H; cbn
  | H : ?o = _ |- context [match ?o with Some _ => _ | None => _ end] => rewrite H; cbn
  end.

(** All the runs of the handler, one goal each; [H] is the equation
    that names the final state and the result. *)
Ltac all_runs H :=
  revert H; unfold_handler; repeat next_outcome; intros H;
  injection H as <- <-; cbn in *.

(** The same for a run that is known to return. *)
Ltac all_returns H :=
  revert H; unfold_handler; repeat next_outcome; intros H;
  first [ discriminate H | injection H as <- <- ]; cbn in *.

(** Membership in a history that is written out. *)
Ltac in_history :=
  repeat match goal with
    | H : _ ∈ [] |- _ => apply elem_of_nil in H; destruct H
    | H : _ ∈ _ :: _ |- _ => apply elem_of_cons in H as [H | H]
    end.

(* ===================================================================== *)
(** * Facts about values and paths                                        *)
(* ===================================================================== *)

(** A value one property of which can be read is neither [undefined]
    nor [null]: every property of it can be read. *)
Lemma js_get_defined (v : JsVal) (k k' : string) (x : JsVal) :
  js_get v k = inr x → ∃ y, js_get v k' = inr y.
Proof. destruct v; unfold js_get; intros H; simplify_eq; eauto. Qed.

Lemma js_get_never_fails_after (v : JsVal) (k k' : string) (x : JsVal) (t : Thrown) :
  js_get v k = inr x → js_get v k' = inl t → False.
Proof.
  intros H H'. destruct (js_get_defined v k k' x H) as [y Hy]. congruence.
Qed.

(** Reading a property succeeds on every value but [undefined] and [null]. *)
Lemma js_get_succeeds_iff (v : JsVal) (k : string) :
  (∃ x, js_get v k = inr x) ↔ v ≠ JUndefined ∧ v ≠ JNull.
Proof.
  split.
  - intros [x H]. destruct v; unfold js_get in H; split; congruence.
  - intros [Hu Hn]. destruct v; unfold js_get; try congruence; eauto.
Qed.

Lemma strict_eq_true_spec (v : JsVal) : strict_eq_true v = true ↔ v = JBool true.
Proof.
  split; [| intros ->; reflexivity].
  destruct v as [| | [] | | | | |]; cbn; congruence.
Qed.

Lemma last_char_app (a b : string) :
  b ≠ EmptyString → last_char (a +:+ b) = last_char b.
Proof.
  intros Hb. induction a as [| c a IH]; [reflexivity |].
  change (String c a +:+ b) with (String c (a +:+ b)).
  destruct (a +:+ b) eqn:Hab.
  - destruct a; cbv in Hab; [congruence | discriminate].
  - exact IH.
Qed.

Lemma module_path_last (dir file : string) :
  file ≠ EmptyString → last_char ("@/app/" +:+ dir +:+ file) = last_char file.
Proof.
  intros Hf. rewrite last_char_app; [apply last_char_app, Hf |].
  destruct dir, file; cbv; congruence.
Qed.

(** The [toolConfig] module is not the [schema] module nor the
    [prompt] module, whatever the tool paths. *)
Lemma import_toolConfig_not_schema (a b : string) (r r' : Completion Exports) :
  EvImport ("@/app/" +:+ a +:+ "/toolConfig") r
  ≠ EvImport ("@/app/" +:+ b +:+ "/schema") r'.
Proof.
  intros H. apply (f_equal import_last_char) in H. unfold import_last_char in H.
  rewrite !module_path_last in H by discriminate. discriminate.
Qed.

Lemma import_toolConfig_not_prompt (a b : string) (r r' : Completion Exports) :
  EvImport ("@/app/" +:+ a +:+ "/toolConfig") r
  ≠ EvImport ("@/app/" +:+ b +:+ "/prompt") r'.
Proof.
  intros H. apply (f_equal import_last_char) in H. unfold import_last_char in H.
  rewrite !module_path_last in H by discriminate. discriminate.
Qed.

Ltac wrong_module :=
  match goal with
  | H : EvImport _ _ = EvImport _ _ |- _ =>
      first [ destruct (import_toolConfig_not_schema _ _ _ _ H)
            | destruct (import_toolConfig_not_prompt _ _ _ _ H) ]
  end.

(** Reading the history through a selection of its events. *)
Lemma elem_of_selected (keep : Event → bool) (e : Event) (l : list Event) :
  e ∈ l → keep e = true → e ∈ List.filter keep l.
Proof.
  intros Hin Hk. apply list_elem_of_In, filter_In.
  split; [by apply list_elem_of_In | done].
Qed.

Ltac select_events H keep :=
  apply (elem_of_selected keep) in H; [| reflexivity]; cbn in H;
  repeat match type of H with
    | _ ∈ [] => apply elem_of_nil in H; destruct H
    | _ ∈ _ :: _ => apply elem_of_cons in H as [H | H]
    end.

Ltac find_event :=
  repeat first [ apply list_elem_of_here | apply list_elem_of_further ].

(** Membership in the history of a run that is computed. *)
Ltac in_run := vm_compute; find_event.

Ltac impossible_read :=
  match goal with
  | H1 : js_get ?v _ = inr _, H2 : js_get ?v _ = inl _ |- _ =>
      destruct (js_get_never_fails_after _ _ _ _ _ H1 H2)
  end.

(** Two imports of different module files are different events. *)
Ltac other_module H :=
  exfalso; apply (f_equal import_last_char) in H; unfold import_last_char in H;
  rewrite !module_path_last in H by discriminate; discriminate H.

Ltac export_is_missing :=
  match goal with
  | Hnone : ?g !! _ = None, E : js_get (export ?g _) _ = inr _ |- _ =>
      unfold export in E; rewrite Hnone in E; discriminate E
  | Hnone : ?g !! _ = None, E : js_call _ _ (export ?g _) _ = inr _ |- _ =>
      unfold export, js_call in E; rewrite Hnone in E; discriminate E
  end.

(* ===================================================================== *)
(** * The route                                                           *)
(* ===================================================================== *)

Section RouteFacts.

Variable pf : Platform.

(** C1. Every run starts with the call of [authMiddleware]; when the
    authentication response has status 401 the handler returns that very
    response and the run consists of that one call: the history holds
    nothing else (no body parse, no module load, no model invocation, no
    database call) and the database is as it was. *)
Theorem POST_unauthorized_short_circuit (sv : Services) (request : Request) (d : Db) :
  (∃ rest, trace (POST pf sv request (start d)).1
           = EvAuthMiddleware request (authMiddleware_outcome sv request) :: rest) ∧
  (∀ authResponse,
      authMiddleware_outcome sv request = inr authResponse →
      status authResponse = 401 →
      POST pf sv request (start d)
      = ({| trace := [EvAuthMiddleware request (inr authResponse)]; db := d |},
         inr authResponse)).
Proof.
  split.
  - unfold_handler. repeat next_outcome; eexists; reflexivity.
  - intros r Hr H401. unfold_handler. rewrite Hr; cbn. rewrite H401; reflexivity.
Qed.

(** C9. Only status 401 stops the handler.  When [authMiddleware]
    answers with any other status (403, 500, ...), the answer is not
    looked at again: the run is the [try]/[catch] block run on the
    request, and what that block does and returns from the same database
    does not depend on the authentication response.  It starts by
    reading the request body; it loads the tool modules once the tool
    path is decoded; and it invokes the model once everything the
    invocation is built from is there. *)
Theorem POST_only_401_short_circuits
    (sv : Services) (request : Request) (d : Db) (authResponse : Response) :
  authMiddleware_outcome sv request = inr authResponse →
  status authResponse ≠ 401 →
  let handled := try_catch (POST_try pf sv request) (POST_catch pf) in
  POST pf sv request (start d)
  = handled {| trace := [EvAuthMiddleware request (inr authResponse)]; db := d |} ∧
  POST pf sv request (start d)
  = ({| trace := EvAuthMiddleware request (inr authResponse)
                 :: trace (handled (start d)).1;
        db := db (handled (start d)).1 |},
     (handled (start d)).2) ∧
  (∃ rest, trace (handled (start d)).1
           = EvRequestJson (JSON_parse pf (body_text request)) :: rest) ∧
  (∀ requestBody rawToolPath toolPath,
      JSON_parse pf (body_text request) = inr requestBody →
      js_get requestBody "toolPath" = inr rawToolPath →
      decodeURIComponent pf rawToolPath = inr toolPath →
      let path := "@/app/" +:+ toolPath +:+ "/toolConfig" in
      EvImport path (import pf path) ∈ trace (POST pf sv request (start d)).1) ∧
  (∀ requestBody rawToolPath toolPath m_config m_schema m_prompt
     functionCall prompt aiModel systemMessage systemText humanText,
      JSON_parse pf (body_text request) = inr requestBody →
      js_get requestBody "toolPath" = inr rawToolPath →
      decodeURIComponent pf rawToolPath = inr toolPath →
      import pf ("@/app/" +:+ toolPath +:+ "/toolConfig") = inr m_config →
      import pf ("@/app/" +:+ toolPath +:+ "/schema") = inr m_schema →
      import pf ("@/app/" +:+ toolPath +:+ "/prompt") = inr m_prompt →
      js_get (export m_schema "functionSchema") "0" = inr functionCall →
      js_call pf "generatePrompt" (export m_prompt "generatePrompt") requestBody
      = inr prompt →
      js_get (export m_config "toolConfig") "aiModel" = inr aiModel →
      ChatAnthropic_error sv {| model := aiModel; maxTokens := 2000 |} = None →
      withStructuredOutput_error sv {| model := aiModel; maxTokens := 2000 |} functionCall
      = None →
      js_get (export m_config "toolConfig") "systemMessage" = inr systemMessage →
      js_String pf systemMessage = inr systemText →
      js_String pf prompt = inr humanText →
      let call := {| chat := {| model := aiModel; maxTokens := 2000 |};
                     schema := functionCall;
                     messages := [("system", systemText); ("human", humanText)] |} in
      EvInvoke call (invoke_outcome sv call) ∈ trace (POST pf sv request (start d)).1).
Proof.
  intros Hauth Hne handled. subst handled. split; [| split; [| split; [| split]]].
  - unfold POST, authMiddleware, record_call, bind, start; cbn.
    rewrite Hauth. destruct (Z.eqb_spec (status authResponse) 401); [contradiction |].
    reflexivity.
  - unfold_handler. rewrite Hauth; cbn.
    destruct (Z.eqb_spec (status authResponse) 401); [contradiction |]; cbn.
    repeat next_outcome; reflexivity.
  - unfold_handler. repeat next_outcome; eexists; reflexivity.
  - intros requestBody rawToolPath toolPath Hbody Hraw Hdir path. subst path.
    unfold_handler. rewrite Hauth; cbn.
    destruct (Z.eqb_spec (status authResponse) 401); [contradiction |]; cbn.
    do 3 known_outcome. repeat next_outcome; find_event.
  - intros. subst call.
    unfold_handler. rewrite Hauth; cbn.
    destruct (Z.eqb_spec (status authResponse) 401); [contradiction |]; cbn.
    repeat known_outcome. repeat next_outcome; find_event.
Qed.

(** C3. Once authentication has passed, the handler always returns a
    response, it never throws.  Whatever the [try] block throws
    ([error]) is answered with status 500 and the body
    [JSON.stringify({status: "Error", message: m})], where [m] is
    [error.message] for an instance of [Error] and
    ["An unknown error occurred"] otherwise; in particular this is the
    answer when the body parse, a module import, the model invocation,
    the database upload or the credit decrement throws. *)
Theorem POST_catches_every_throw
    (sv : Services) (request : Request) (d : Db) (authResponse : Response) :
  authMiddleware_outcome sv request = inr authResponse →
  status authResponse ≠ 401 →
  ∃ st response,
    POST pf sv request (start d) = (st, inr response) ∧
    (∀ st' error,
        POST_try pf sv request
          {| trace := [EvAuthMiddleware request (inr authResponse)]; db := d |}
        = (st', inl error) →
        response
        = {| status := 500;
             body := JSON_stringify pf
                       (JObj [("status", JStr "Error");
                              ("message",
                               match error with
                               | ErrorInstance message => message
                               | NonError _ => JStr "An unknown error occurred"
                               end)]) |}) ∧
    (∀ ev error, ev ∈ trace st → thrown_by ev = Some error →
                 response = error_response pf error).
Proof.
  intros Hauth Hne. unfold_handler. rewrite Hauth; cbn.
  destruct (Z.eqb_spec (status authResponse) 401); [contradiction |]; cbn.
  repeat next_outcome;
    (eexists _, _; split; [reflexivity |]; split;
     [ intros st' error Htry; simplify_eq; reflexivity
     | intros ev error Hin Hthrown; cbn in Hin; in_history; subst ev;
       cbn in Hthrown; simplify_eq; reflexivity ]).
Qed.

(** C2. In a run in which the model invocation and the database upload
    have both succeeded, [reduceUserCredits] is called if and only if
    [toolConfig.paywall] is the boolean [true] ([=== true]); any other
    value, a missing property included, means no call.  When it is
    called, it is called once, with [requestBody.email] and
    [toolConfig.credits]. *)
Theorem paywall_gates_credit_decrement
    (sv : Services) (request : Request) (d : Db) (st : St) (res : Completion Response)
    (toolPath : string) (exports : Exports) (call : ModelCall)
    (input output output' tp aiModel rows : JsVal) :
  POST pf sv request (start d) = (st, res) →
  EvImport ("@/app/" +:+ toolPath +:+ "/toolConfig") (inr exports) ∈ trace st →
  EvInvoke call (inr output) ∈ trace st →
  EvUploadToSupabase input output' tp aiModel (inr rows) ∈ trace st →
  let toolConfig := export exports "toolConfig" in
  ((∃ email credits r, EvReduceUserCredits email credits r ∈ trace st)
   ↔ js_get toolConfig "paywall" = inr (JBool true)) ∧
  (∀ email credits r,
      EvReduceUserCredits email credits r ∈ trace st →
      js_get input "email" = inr email ∧
      js_get toolConfig "credits" = inr credits ∧
      List.filter is_reduce (trace st) = [EvReduceUserCredits email credits r]).
Proof.
  intros Hrun. all_runs Hrun; intros Himp Hinv Hup;
    select_events Hup is_upload; try discriminate Hup.
  all: select_events Himp is_import; try wrong_module.
  all:  try impossible_read.
  all:  injection Hup as -> -> -> -> ->; injection Himp as _ ->.
  all: try match goal with
         | H : strict_eq_true _ = true |- _ => apply strict_eq_true_spec in H; subst
         end.
  all: split;
    [ split;
      [ intros (? & ? & ? & Hin); select_events Hin is_reduce; try done
      | intros Hpay; try solve [do 3 eexists; find_event]
         ]
    | intros ? ? ? Hin; select_events Hin is_reduce].
  all: try match goal with E : js_get ?v "paywall" = inr ?j, Hpay : js_get ?v "paywall" = inr (JBool true) |- _ =>
            rewrite E in Hpay; injection Hpay as ->; discriminate end.
  all: injection Hin as -> -> ->; auto.
Qed.

(** C4. In a run that ends with the status-200 response, the model
    invoke, the database insert and the credit decrement happen in this
    order and no other way: the invoke, which answers; then the insert
    of that answer, which succeeds; then, exactly when
    [toolConfig.paywall === true], the decrement, which succeeds. *)
Theorem POST_effects_in_order
    (sv : Services) (request : Request) (d : Db) (st : St) (response : Response) :
  POST pf sv request (start d) = (st, inr response) →
  status response = 200 →
  ∃ (toolDir : string) (exports : Exports) (paywall : JsVal)
    (call : ModelCall) (input output toolPath aiModel rows email credits : JsVal),
    EvImport ("@/app/" +:+ toolDir +:+ "/toolConfig") (inr exports) ∈ trace st ∧
    js_get (export exports "toolConfig") "paywall" = inr paywall ∧
    List.filter is_external_effect (trace st)
    = ([EvInvoke call (inr output);
        EvUploadToSupabase input output toolPath aiModel (inr rows)]
       ++ (if strict_eq_true paywall
           then [EvReduceUserCredits email credits (inr tt)]
           else []))%list.
Proof.
  intros Hrun. all_returns Hrun; intros H200; try congruence; try discriminate H200.
  all: match goal with
       | E : js_get _ "paywall" = inr ?p, Ep : strict_eq_true ?p = _ |- _ =>
           eexists _, _, p; do 8 eexists;
           split; [find_event |]; split; [exact E |]; rewrite Ep
       end.
  all: try match goal with u : unit |- _ => destruct u end.
  all: reflexivity.
  Unshelve. all: exact JUndefined.
Qed.

(** C5. Whenever the model is invoked, the request body has been
    parsed, [decodeURIComponent] has been applied to
    [requestBody.toolPath], and exactly three modules have been loaded
    from the directory it names: [toolConfig], [schema] and [prompt].
    The invocation is bound to [functionSchema[0]], uses the model
    [toolConfig.aiModel] with at most 2000 tokens, and sends the system
    message [String(toolConfig.systemMessage)] followed by the human
    message [String(generatePrompt(requestBody))]. *)
Theorem POST_invokes_model_as_configured
    (sv : Services) (request : Request) (d : Db) (st : St) (res : Completion Response)
    (call : ModelCall) (outcome : Completion JsVal) :
  POST pf sv request (start d) = (st, res) →
  EvInvoke call outcome ∈ trace st →
  ∃ (requestBody rawToolPath : JsVal) (toolPath : string)
    (m_config m_schema m_prompt : Exports),
    JSON_parse pf (body_text request) = inr requestBody ∧
    js_get requestBody "toolPath" = inr rawToolPath ∧
    decodeURIComponent pf rawToolPath = inr toolPath ∧
    List.filter is_import (trace st)
    = [EvImport ("@/app/" +:+ toolPath +:+ "/toolConfig") (inr m_config);
       EvImport ("@/app/" +:+ toolPath +:+ "/schema") (inr m_schema);
       EvImport ("@/app/" +:+ toolPath +:+ "/prompt") (inr m_prompt)] ∧
    ∃ (functionCall prompt aiModel systemMessage : JsVal) (systemText humanText : string),
      js_get (export m_schema "functionSchema") "0" = inr functionCall ∧
      js_call pf "generatePrompt" (export m_prompt "generatePrompt") requestBody
      = inr prompt ∧
      js_get (export m_config "toolConfig") "aiModel" = inr aiModel ∧
      js_get (export m_config "toolConfig") "systemMessage" = inr systemMessage ∧
      js_String pf systemMessage = inr systemText ∧
      js_String pf prompt = inr humanText ∧
      call = {| chat := {| model := aiModel; maxTokens := 2000 |};
                schema := functionCall;
                messages := [("system", systemText); ("human", humanText)] |} ∧
      outcome = invoke_outcome sv call.
Proof.
  intros Hrun. all_runs Hrun; intros Hin; select_events Hin is_invoke;
    injection Hin as -> ->.
  all: do 6 eexists; repeat (split; [eassumption || reflexivity |]).
  all: do 6 eexists; repeat (split; [eassumption || reflexivity |]).
  all: symmetry; assumption.
Qed.

(** C6. A run invokes the model at most once and calls
    [uploadToSupabase] at most once (so it adds at most one row).  A run
    that returns status 200 has done each exactly once, and its body is
    [JSON.stringify({slug: s})] where [s] is the [slug] of the first
    element of what [uploadToSupabase] resolved to. *)
Theorem POST_one_invoke_one_insert
    (sv : Services) (request : Request) (d : Db) (st : St) (res : Completion Response) :
  POST pf sv request (start d) = (st, res) →
  (length (List.filter is_invoke (trace st)) ≤ 1)%nat ∧
  (length (List.filter is_upload (trace st)) ≤ 1)%nat ∧
  (length (generations (db st)) ≤ length (generations d) + 1)%nat ∧
  ∀ response,
    res = inr response →
    status response = 200 →
    length (List.filter is_invoke (trace st)) = 1%nat ∧
    ∃ input output toolPath aiModel rows first slug,
      List.filter is_upload (trace st)
      = [EvUploadToSupabase input output toolPath aiModel (inr rows)] ∧
      generations (db st)
      = (generations d ++ [generation_row input output toolPath aiModel])%list ∧
      js_get rows "0" = inr first ∧
      js_get first "slug" = inr slug ∧
      response = {| status := 200; body := JSON_stringify pf (JObj [("slug", slug)]) |}.
Proof.
  intros Hrun. all_runs Hrun.
  all: repeat match goal with
         | |- context [length (?l ++ [?x])] => rewrite (length_app l [x]); cbn
         end.
  all: split; [lia |]; split; [lia |]; split; [lia |].
  all: intros response Hres H200; try discriminate Hres; injection Hres as <-;
    try congruence; try discriminate H200.
  all: split; [reflexivity |]; do 7 eexists;
    repeat (split; [eassumption || reflexivity |]); reflexivity.
Qed.

(** C8. Once [uploadToSupabase] has succeeded its row stays: the final
    database holds the generations it started with and the new row,
    whatever happens next, and after the upload the handler calls
    nothing but the credit decrement and [console.error], so nothing
    undoes the insert.  If then the credit decrement throws, or, the
    decrement not having thrown, reading [supabaseResponse[0].slug]
    throws, the handler still answers with the status-500 error
    response. *)
Theorem POST_insert_not_rolled_back
    (sv : Services) (request : Request) (d : Db) (st : St) (res : Completion Response)
    (input output toolPath aiModel rows : JsVal) :
  POST pf sv request (start d) = (st, res) →
  EvUploadToSupabase input output toolPath aiModel (inr rows) ∈ trace st →
  generations (db st)
  = (generations d ++ [generation_row input output toolPath aiModel])%list ∧
  forallb (λ e, is_reduce e || is_console_error e)
    (events_after is_upload (trace st)) = true ∧
  ∃ response,
    res = inr response ∧
    (∀ email credits error,
        EvReduceUserCredits email credits (inl error) ∈ trace st →
        response = error_response pf error) ∧
    ((∀ email credits error,
         EvReduceUserCredits email credits (inl error) ∉ trace st) →
     ∀ error,
       js_get rows "0" = inl error
       ∨ (∃ first, js_get rows "0" = inr first ∧ js_get first "slug" = inl error) →
       response = error_response pf error).
Proof.
  intros Hrun. all_runs Hrun; intros Hup; select_events Hup is_upload;
    try discriminate Hup; try impossible_read; injection Hup as -> -> -> -> ->.
  all: split; [reflexivity |]; split; [reflexivity |];
    eexists; split; [reflexivity |]; split.
  all: try (intros ? ? ? Hin; select_events Hin is_reduce; try done;
            injection Hin as -> -> ->; reflexivity).
  all: intros Hnone error Hlate.
  all: try (exfalso; eapply Hnone; find_event; fail).
  all: unfold error_response, NextResponse_json;
    destruct Hlate as [Hlate | (first & Hfirst & Hlate)]; congruence.
Qed.

(** The arguments of a credit decrement are functions of the request
    body and of the modules alone. *)
Lemma reduceUserCredits_arguments
    (sv : Services) (request : Request) (d : Db) (st : St) (res : Completion Response)
    (email credits : JsVal) (r : Completion unit) :
  POST pf sv request (start d) = (st, res) →
  EvReduceUserCredits email credits r ∈ trace st →
  ∃ (requestBody rawToolPath : JsVal) (toolPath : string) (m_config : Exports),
    JSON_parse pf (body_text request) = inr requestBody ∧
    js_get requestBody "toolPath" = inr rawToolPath ∧
    decodeURIComponent pf rawToolPath = inr toolPath ∧
    import pf ("@/app/" +:+ toolPath +:+ "/toolConfig") = inr m_config ∧
    js_get requestBody "email" = inr email ∧
    js_get (export m_config "toolConfig") "credits" = inr credits.
Proof.
  intros Hrun. all_runs Hrun; intros Hin; select_events Hin is_reduce;
    injection Hin as -> -> ->.
  all: do 4 eexists; repeat (split; [eassumption || reflexivity |]); eassumption.
Qed.

(** C10. The account charged and the amount are read off the request
    body and the tool configuration it names, not off the caller: two
    runs on requests with the same body text, under any two
    authentication, model and database behaviours and from any two
    databases, call [reduceUserCredits] with the same email, which is
    [requestBody.email], and the same amount. *)
Theorem paywall_charges_account_of_body
    (sv1 sv2 : Services) (request1 request2 : Request) (d1 d2 : Db)
    (st1 st2 : St) (res1 res2 : Completion Response)
    (email1 credits1 email2 credits2 : JsVal) (r1 r2 : Completion unit) :
  body_text request1 = body_text request2 →
  POST pf sv1 request1 (start d1) = (st1, res1) →
  POST pf sv2 request2 (start d2) = (st2, res2) →
  EvReduceUserCredits email1 credits1 r1 ∈ trace st1 →
  EvReduceUserCredits email2 credits2 r2 ∈ trace st2 →
  email1 = email2 ∧ credits1 = credits2 ∧
  ∃ requestBody,
    JSON_parse pf (body_text request1) = inr requestBody ∧
    js_get requestBody "email" = inr email1.
Proof.
  intros Hbody Hrun1 Hrun2 Hin1 Hin2.
  destruct (reduceUserCredits_arguments _ _ _ _ _ _ _ _ Hrun1 Hin1)
    as (b1 & raw1 & dir1 & m1 & Hb1 & Hraw1 & Hdir1 & Hm1 & He1 & Hc1).
  destruct (reduceUserCredits_arguments _ _ _ _ _ _ _ _ Hrun2 Hin2)
    as (b2 & raw2 & dir2 & m2 & Hb2 & Hraw2 & Hdir2 & Hm2 & He2 & Hc2).
  rewrite Hbody in Hb1. rewrite Hb1 in Hb2. injection Hb2 as <-.
  rewrite Hraw1 in Hraw2. injection Hraw2 as <-.
  rewrite Hdir1 in Hdir2. injection Hdir2 as <-.
  rewrite Hm1 in Hm2. injection Hm2 as <-.
  rewrite He1 in He2. injection He2 as <-.
  rewrite Hc1 in Hc2. injection Hc2 as <-.
  rewrite Hbody. eauto.
Qed.

End RouteFacts.

(* ===================================================================== *)
(** * The page                                                            *)
(* ===================================================================== *)

Section PageFacts.

Variable toolConfig : JsVal.

(** C7. The page is a pure rendering component.  Rendering it changes
    nothing and gives the same result every time.  With the company
    configured, the result is one fixed composition: inside a [div]
    themed by [toolConfig.company.theme], the navbar, hero, how-to,
    pricing, testimonials, call-to-action, FAQ and footer sections, in
    this order, the navbar and the footer being given
    [toolConfig.company] and [toolConfig.navbarLanding], resp.
    [toolConfig.footerLanding].  The page metadata is made of the four
    fields of [toolConfig.metadata] and of nothing else. *)
Theorem Page_is_a_fixed_composition (st : St) :
  (Page toolConfig st).1 = st ∧
  (metadata toolConfig st).1 = st ∧
  (∀ st', (Page toolConfig st').2 = (Page toolConfig st).2) ∧
  (∀ st', (metadata toolConfig st').2 = (metadata toolConfig st).2) ∧
  (∀ company theme,
      js_get toolConfig "company" = inr company →
      js_get company "theme" = inr theme →
      ∃ navbarLanding footerLanding page,
        js_get toolConfig "navbarLanding" = inr navbarLanding ∧
        js_get toolConfig "footerLanding" = inr footerLanding ∧
        (Page toolConfig st).2 = inr page ∧
        page
        = Fragment
            [Host "div" [("data-theme", theme)]
               [Component Navbar [("companyConfig", company);
                                  ("navbarConfig", navbarLanding)];
                Component Hero [];
                Component How [];
                Component Pricing [];
                Component Testimonials [];
                Component CTA [];
                Component FAQ [];
                Component Footer [("companyConfig", company);
                                  ("footerConfig", footerLanding)]]] ∧
        components page
        = [Navbar; Hero; How; Pricing; Testimonials; CTA; FAQ; Footer]) ∧
  (∀ meta title description og_image canonical,
      js_get toolConfig "metadata" = inr meta →
      js_get meta "title" = inr title →
      js_get meta "description" = inr description →
      js_get meta "og_image" = inr og_image →
      js_get meta "canonical" = inr canonical →
      (metadata toolConfig st).2
      = inr (JObj [("title", title);
                   ("description", description);
                   ("openGraph", JObj [("images", JArr [og_image])]);
                   ("alternates", JObj [("canonical", canonical)])])).
Proof.
  repeat split.
  - unfold Page, eval, bind, ret; cbn. repeat next_outcome; reflexivity.
  - unfold metadata, eval, bind, ret; cbn. repeat next_outcome; reflexivity.
  - intros st'. unfold Page, eval, bind, ret; cbn. repeat next_outcome; reflexivity.
  - intros st'. unfold metadata, eval, bind, ret; cbn. repeat next_outcome; reflexivity.
  - intros company theme Hcompany Htheme.
    destruct (js_get_defined _ _ "navbarLanding" _ Hcompany) as [navbarLanding Hnav].
    destruct (js_get_defined _ _ "footerLanding" _ Hcompany) as [footerLanding Hfoot].
    exists navbarLanding, footerLanding. eexists.
    split; [exact Hnav |]. split; [exact Hfoot |].
    unfold Page, eval, bind, ret; cbn.
    rewrite Hcompany; cbn. rewrite Htheme; cbn. rewrite Hnav; cbn. rewrite Hfoot; cbn.
    repeat split.
  - intros meta title description og_image canonical Hmeta Ht Hd Ho Hc.
    unfold metadata, eval, bind, ret; cbn.
    rewrite Hmeta; cbn. rewrite Ht; cbn. rewrite Hd; cbn. rewrite Ho; cbn.
    rewrite Hc; reflexivity.
Qed.

End PageFacts.

(* ===================================================================== *)
(** * The deployment of [Demo], run                                       *)
(* ===================================================================== *)

Lemma POST_unauthorized_short_circuit_witness :
  let request := Demo.stranger_claude in
  let refusal := {| status := 401; body := "{error:Unauthorized}" |} in
  authMiddleware_outcome Demo.services request = inr refusal ∧
  status refusal = 401 ∧
  POST Demo.platform Demo.services request (start Demo.empty_db)
  = ({| trace := [EvAuthMiddleware request (inr refusal)]; db := Demo.empty_db |},
     inr refusal).
Proof.
  cbn zeta.
  split; [reflexivity |]. split; [reflexivity |].
  apply (proj2 (POST_unauthorized_short_circuit Demo.platform Demo.services
                  Demo.stranger_claude Demo.empty_db)); reflexivity.
Defined.


Lemma POST_only_401_short_circuits_witness :
  let request := Demo.bob_claude in
  let forbidden := {| status := 403; body := "{error:Forbidden}" |} in
  let handled := try_catch (POST_try Demo.platform Demo.services request)
                           (POST_catch Demo.platform) in
  authMiddleware_outcome Demo.services request = inr forbidden ∧
  status forbidden ≠ 401 ∧
  POST Demo.platform Demo.services request (start Demo.empty_db)
  = ({| trace := EvAuthMiddleware request (inr forbidden)
                 :: trace (handled (start Demo.empty_db)).1;
        db := db (handled (start Demo.empty_db)).1 |},
     (handled (start Demo.empty_db)).2).
Proof.
  cbn zeta. split; [reflexivity |]. split; [cbn; lia |].
  apply (POST_only_401_short_circuits Demo.platform Demo.services
           Demo.bob_claude Demo.empty_db {| status := 403; body := "{error:Forbidden}" |});
    [reflexivity | cbn; lia].
Defined.

Lemma POST_catches_every_throw_witness :
  let request := Demo.ada_claude in
  let ok := {| status := 200; body := "{}" |} in
  authMiddleware_outcome Demo.services_no_model request = inr ok ∧
  status ok ≠ 401 ∧
  ∃ st response,
    POST Demo.platform Demo.services_no_model request (start Demo.empty_db)
    = (st, inr response) ∧
    (∀ ev error, ev ∈ trace st → thrown_by ev = Some error →
                 response = error_response Demo.platform error).
Proof.
  cbn zeta. split; [reflexivity |]. split; [cbn; lia |].
  destruct (POST_catches_every_throw Demo.platform Demo.services_no_model
              Demo.ada_claude Demo.empty_db {| status := 200; body := "{}" |})
    as (st & response & Hrun & _ & Hev); [reflexivity | cbn; lia |].
  exists st, response. split; [exact Hrun | exact Hev].
Defined.

Lemma paywall_gates_credit_decrement_witness :
  let run := POST Demo.platform Demo.services Demo.ada_claude (start Demo.empty_db) in
  (∃ email credits r, EvReduceUserCredits email credits r ∈ trace run.1)
  ↔ js_get (export Demo.config_module "toolConfig") "paywall" = inr (JBool true).
Proof.
  cbn zeta.
  refine (proj1 (paywall_gates_credit_decrement
                   Demo.platform Demo.services Demo.ada_claude Demo.empty_db _ _
                   "(apps)/claude" Demo.config_module Demo.claude_call
                   Demo.claude_body Demo.answer Demo.answer
                   (JStr "(apps)/claude") (JStr "claude-3-5-sonnet-20240620")
                   Demo.inserted _ _ _ _)).
  - apply surjective_pairing.
  - in_run.
  - in_run.
  - in_run.
Defined.

Lemma POST_effects_in_order_witness :
  let run := POST Demo.platform Demo.services Demo.ada_claude (start Demo.empty_db) in
  ∃ (toolDir : string) (exports : Exports) (paywall : JsVal)
    (call : ModelCall) (input output toolPath aiModel rows email credits : JsVal),
    EvImport ("@/app/" +:+ toolDir +:+ "/toolConfig") (inr exports) ∈ trace run.1 ∧
    js_get (export exports "toolConfig") "paywall" = inr paywall ∧
    List.filter is_external_effect (trace run.1)
    = ([EvInvoke call (inr output);
        EvUploadToSupabase input output toolPath aiModel (inr rows)]
       ++ (if strict_eq_true paywall
           then [EvReduceUserCredits email credits (inr tt)]
           else []))%list.
Proof.
  cbn zeta.
  apply (POST_effects_in_order Demo.platform Demo.services Demo.ada_claude
           Demo.empty_db _ {| status := 200; body := "{slug:steep-4f2a}" |}).
  - vm_compute. reflexivity.
  - reflexivity.
Defined.

Lemma POST_invokes_model_as_configured_witness :
  let run := POST Demo.platform Demo.services Demo.ada_claude (start Demo.empty_db) in
  EvInvoke Demo.claude_call (inr Demo.answer) ∈ trace run.1 ∧
  ∃ (toolPath : string) (m_config m_schema m_prompt : Exports),
    List.filter is_import (trace run.1)
    = [EvImport ("@/app/" +:+ toolPath +:+ "/toolConfig") (inr m_config);
       EvImport ("@/app/" +:+ toolPath +:+ "/schema") (inr m_schema);
       EvImport ("@/app/" +:+ toolPath +:+ "/prompt") (inr m_prompt)].
Proof.
  cbn zeta.
  assert (Hin : EvInvoke Demo.claude_call (inr Demo.answer)
                ∈ trace (POST Demo.platform Demo.services Demo.ada_claude
                           (start Demo.empty_db)).1) by in_run.
  split; [exact Hin |].
  destruct (POST_invokes_model_as_configured Demo.platform Demo.services
              Demo.ada_claude Demo.empty_db _ _ Demo.claude_call (inr Demo.answer)
              (surjective_pairing _) Hin)
    as (body & raw & dir & m1 & m2 & m3 & _ & _ & _ & Himports & _).
  exists dir, m1, m2, m3. exact Himports.
Defined.

Lemma POST_one_invoke_one_insert_witness :
  let run := POST Demo.platform Demo.services Demo.ada_claude (start Demo.empty_db) in
  (length (List.filter is_invoke (trace run.1)) ≤ 1)%nat ∧
  (length (List.filter is_upload (trace run.1)) ≤ 1)%nat.
Proof.
  cbn zeta.
  destruct (POST_one_invoke_one_insert Demo.platform Demo.services Demo.ada_claude
              Demo.empty_db _ _ (surjective_pairing _)) as (Hi & Hu & _).
  split; [exact Hi | exact Hu].
Defined.

Lemma POST_insert_not_rolled_back_witness :
  let run := POST Demo.platform Demo.services_no_credit Demo.ada_claude
               (start Demo.empty_db) in
  generations (db run.1)
  = [generation_row Demo.claude_body Demo.answer
       (JStr "(apps)/claude") (JStr "claude-3-5-sonnet-20240620")] ∧
  ∃ response,
    run.2 = inr response ∧
    ∀ email credits error,
      EvReduceUserCredits email credits (inl error) ∈ trace run.1 →
      response = error_response Demo.platform error.
Proof.
  cbn zeta.
  destruct (POST_insert_not_rolled_back Demo.platform Demo.services_no_credit
              Demo.ada_claude Demo.empty_db _ _
              Demo.claude_body Demo.answer
              (JStr "(apps)/claude") (JStr "claude-3-5-sonnet-20240620")
              Demo.inserted (surjective_pairing _))
    as (Hrow & _ & response & Hres & Hcredit & _).
  - in_run.
  - split; [exact Hrow |]. exists response. split; [exact Hres | exact Hcredit].
Defined.

Lemma paywall_charges_account_of_body_witness :
  let ada := POST Demo.platform Demo.services Demo.ada_claude (start Demo.empty_db) in
  let bob := POST Demo.platform Demo.services_no_credit Demo.bob_claude
               (start Demo.empty_db) in
  body_text Demo.ada_claude = body_text Demo.bob_claude ∧
  EvReduceUserCredits (JStr "ada@example.com") (JNum 5) (inr tt) ∈ trace ada.1 ∧
  EvReduceUserCredits (JStr "ada@example.com") (JNum 5)
    (inl (ErrorInstance (JStr "User not found"))) ∈ trace bob.1 ∧
  ∃ requestBody,
    JSON_parse Demo.platform (body_text Demo.ada_claude) = inr requestBody ∧
    js_get requestBody "email" = inr (JStr "ada@example.com").
Proof.
  cbn zeta.
  assert (Hada : EvReduceUserCredits (JStr "ada@example.com") (JNum 5) (inr tt)
                 ∈ trace (POST Demo.platform Demo.services Demo.ada_claude
                            (start Demo.empty_db)).1) by in_run.
  assert (Hbob : EvReduceUserCredits (JStr "ada@example.com") (JNum 5)
                   (inl (ErrorInstance (JStr "User not found")))
                 ∈ trace (POST Demo.platform Demo.services_no_credit Demo.bob_claude
                            (start Demo.empty_db)).1) by in_run.
  split; [reflexivity |]. split; [exact Hada |]. split; [exact Hbob |].
  exact (proj2 (proj2 (paywall_charges_account_of_body Demo.platform
                         Demo.services Demo.services_no_credit
                         Demo.ada_claude Demo.bob_claude Demo.empty_db Demo.empty_db
                         _ _ _ _ _ _ _ _ _ _
                         eq_refl (surjective_pairing _) (surjective_pairing _)
                         Hada Hbob))).
Defined.

Lemma Page_is_a_fixed_composition_witness :
  ∃ page,
    (Page Demo.gpt_config (start Demo.empty_db)).2 = inr page ∧
    components page = [Navbar; Hero; How; Pricing; Testimonials; CTA; FAQ; Footer].
Proof.
  destruct (Page_is_a_fixed_composition Demo.gpt_config (start Demo.empty_db))
    as (_ & _ & _ & _ & Hpage & _).
  destruct (Hpage (JObj [("name", JStr "ChartGPT"); ("theme", JStr "anotherwrapper")])
              (JStr "anotherwrapper") eq_refl eq_refl)
    as (nav & foot & page & _ & _ & Hrender & _ & Hsections).
  exists page. split; [exact Hrender | exact Hsections].
Defined.

(** Concrete runs. *)

Example stranger_is_turned_away :
  POST Demo.platform Demo.services Demo.stranger_claude (start Demo.empty_db)
  = ({| trace := [EvAuthMiddleware Demo.stranger_claude
                    (inr {| status := 401; body := "{error:Unauthorized}" |})];
        db := Demo.empty_db |},
     inr {| status := 401; body := "{error:Unauthorized}" |}).
Proof. reflexivity. Qed.

Example paid_tool_charges_five_credits :
  let run := POST Demo.platform Demo.services Demo.ada_claude (start Demo.empty_db) in
  run.2 = inr {| status := 200; body := "{slug:steep-4f2a}" |} ∧
  debits (db run.1)
  = [{| debit_email := JStr "ada@example.com"; debit_credits := JNum 5 |}].
Proof. split; reflexivity. Qed.

(** [paywall: "true"] is truthy, but it is not [true]: nothing is charged. *)
Example truthy_paywall_is_not_charged :
  let run := POST Demo.platform Demo.services Demo.ada_free (start Demo.empty_db) in
  run.2 = inr {| status := 200; body := "{slug:steep-4f2a}" |} ∧
  List.filter is_reduce (trace run.1) = [] ∧
  debits (db run.1) = [].
Proof. repeat split; reflexivity. Qed.

(** A 403 from the middleware does not stop the handler: Bob's request
    is served, and Ada, whose email is in the body, pays for it. *)
Example forbidden_caller_is_served :
  let run := POST Demo.platform Demo.services Demo.bob_claude (start Demo.empty_db) in
  run.2 = inr {| status := 200; body := "{slug:steep-4f2a}" |} ∧
  length (generations (db run.1)) = 1%nat ∧
  debits (db run.1)
  = [{| debit_email := JStr "ada@example.com"; debit_credits := JNum 5 |}].
Proof. repeat split; reflexivity. Qed.

(** The credit update fails after the insert: status 500, one row kept. *)
Example failed_decrement_keeps_the_row :
  let run := POST Demo.platform Demo.services_no_credit Demo.ada_claude
               (start Demo.empty_db) in
  run.2 = inr {| status := 500; body := "{status:Error,message:User not found}" |} ∧
  length (generations (db run.1)) = 1%nat ∧
  debits (db run.1) = [].
Proof. repeat split; reflexivity. Qed.

(** What the model SDK throws is not an [Error]: the stock message. *)
Example unknown_error_message :
  let run := POST Demo.platform Demo.services_no_model Demo.ada_claude
               (start Demo.empty_db) in
  run.2 = inr {| status := 500;
                 body := "{status:Error,message:An unknown error occurred}" |} ∧
  generations (db run.1) = [].
Proof. split; reflexivity. Qed.

(** The body [null] parses, and reading [toolPath] of it throws. *)
Example null_body_is_an_error :
  (POST Demo.platform Demo.services
     {| credentials := "session-ada"; body_text := "null" |} (start Demo.empty_db)).2
  = inr {| status := 500;
           body := "{status:Error,message:Cannot read properties of null (reading 'toolPath')}" |}.
Proof. reflexivity. Qed.

(* ===================================================================== *)
(** * More about the route                                              *)
(* ===================================================================== *)

Section RouteMore.
Variable pf : Platform.

(** X1. [authMiddleware] is called outside the [try]: the handler
    throws exactly when [authMiddleware] throws, it throws the same
    value, and then nothing else has run. *)
Theorem POST_rejects_exactly_when_auth_throws
    (sv : Services) (request : Request) (d : Db) (error : Thrown) :
  ((POST pf sv request (start d)).2 = inl error
   ↔ authMiddleware_outcome sv request = inl error) ∧
  (authMiddleware_outcome sv request = inl error →
   POST pf sv request (start d)
   = ({| trace := [EvAuthMiddleware request (inl error)]; db := d |}, inl error)).
Proof.
  split; [split |].
  - unfold_handler. repeat next_outcome; intros H; congruence.
  - intros H. unfold_handler. rewrite H. reflexivity.
  - intros H. unfold_handler. rewrite H. reflexivity.
Qed.

(** X2. Whatever the handler returns has status 401, 200 or 500: the
    401 is the response of [authMiddleware] itself, returned after that
    single call; the 200 is the [slug] response; the 500 is the
    response of the [catch] block for some thrown value. *)
Theorem POST_status_is_401_200_or_500
    (sv : Services) (request : Request) (d : Db) (st : St) (response : Response) :
  POST pf sv request (start d) = (st, inr response) →
  (status response = 401 ∧
   authMiddleware_outcome sv request = inr response ∧
   st = {| trace := [EvAuthMiddleware request (inr response)]; db := d |})
  ∨ (status response = 200 ∧
     ∃ slug, response = NextResponse_json pf (JObj [("slug", slug)]) 200)
  ∨ (status response = 500 ∧ ∃ error, response = error_response pf error).
Proof.
  intros Hrun. all_returns Hrun.
  1: left; auto.
  all: first [ right; right; split; [reflexivity | eexists; reflexivity]
             | right; left; split; [reflexivity | eexists; reflexivity] ].
Qed.



(** X4. What [uploadToSupabase] is given: the parsed request body as
    it came, the answer of the model invocation made before it, and
    [toolConfig.toolPath] and [toolConfig.aiModel] of the loaded
    configuration (not the tool path of the request), the model being
    the one the chat was built with.  It is the first access to the
    database of the run. *)
Theorem uploaded_row_provenance
    (sv : Services) (request : Request) (d : Db) (st : St) (res : Completion Response)
    (input output toolPath aiModel : JsVal) (r : Completion JsVal) :
  POST pf sv request (start d) = (st, res) →
  EvUploadToSupabase input output toolPath aiModel r ∈ trace st →
  ∃ (rawToolPath : JsVal) (dir : string) (m_config : Exports) (call : ModelCall),
    JSON_parse pf (body_text request) = inr input ∧
    js_get input "toolPath" = inr rawToolPath ∧
    decodeURIComponent pf rawToolPath = inr dir ∧
    import pf ("@/app/" +:+ dir +:+ "/toolConfig") = inr m_config ∧
    js_get (export m_config "toolConfig") "toolPath" = inr toolPath ∧
    js_get (export m_config "toolConfig") "aiModel" = inr aiModel ∧
    EvInvoke call (inr output) ∈ trace st ∧
    model (chat call) = aiModel ∧
    r = uploadToSupabase_outcome sv input output toolPath aiModel d.
Proof.
  intros Hrun. all_runs Hrun; intros Hin; select_events Hin is_upload;
    injection Hin as -> -> -> -> ->.
  all: do 4 eexists; repeat (split; [eassumption || reflexivity || find_event |]).
  all: first [ assumption | symmetry; assumption ].
Qed.

(** X5. A credit decrement that has succeeded stays, whatever the
    response: when reading [supabaseResponse[0].slug] then throws
    (an insert that resolved to no rows, say), the caller gets status
    500 and has been charged all the same. *)
Theorem charge_survives_late_failure
    (sv : Services) (request : Request) (d : Db) (st : St) (res : Completion Response)
    (email credits : JsVal) :
  POST pf sv request (start d) = (st, res) →
  EvReduceUserCredits email credits (inr tt) ∈ trace st →
  debits (db st) = (debits d ++ [debit_row email credits])%list ∧
  ∃ input output toolPath aiModel rows,
    EvUploadToSupabase input output toolPath aiModel (inr rows) ∈ trace st ∧
    (∀ first slug,
        js_get rows "0" = inr first → js_get first "slug" = inr slug →
        res = inr (NextResponse_json pf (JObj [("slug", slug)]) 200)) ∧
    (∀ error,
        js_get rows "0" = inl error
        ∨ (∃ first, js_get rows "0" = inr first ∧ js_get first "slug" = inl error) →
        res = inr (error_response pf error)).
Proof.
  intros Hrun. all_runs Hrun; intros Hin; select_events Hin is_reduce;
    try discriminate Hin; injection Hin as -> -> _.
  all: split; [reflexivity |]; do 5 eexists; split; [find_event |]; split.
  all: try (intros first slug H0 Hslug; congruence).
  all: intros error Hlate; unfold error_response, NextResponse_json;
    destruct Hlate as [Hlate | (first & Hfirst & Hlate)]; congruence.
Qed.

(** X6. The three modules are loaded one after the other: a module
    that fails to load is the last one tried, after at most two that
    loaded, and the run ends there with the status-500 response for
    that failure, the model not invoked and the database untouched. *)
Theorem import_failure_stops_the_run
    (sv : Services) (request : Request) (d : Db) (st : St) (res : Completion Response)
    (path : string) (error : Thrown) :
  POST pf sv request (start d) = (st, res) →
  EvImport path (inl error) ∈ trace st →
  (∃ loaded,
      List.filter is_import (trace st) = (loaded ++ [EvImport path (inl error)])%list ∧
      (length loaded ≤ 2)%nat ∧
      Forall (λ e, thrown_by e = None) loaded) ∧
  List.filter is_external_effect (trace st) = [] ∧
  db st = d ∧
  res = inr (error_response pf error).
Proof.
  intros Hrun. all_runs Hrun; intros Hin; select_events Hin is_import;
    try discriminate Hin; injection Hin as -> ->.
  all: split; [| repeat split].
  all: first [ exists []; split; [reflexivity |]
             | eexists [_]; split; [reflexivity |]
             | eexists [_; _]; split; [reflexivity |] ];
    split; [cbn; lia |]; repeat constructor.
Qed.

(** X7. A body that cannot be parsed, a body that is [null] (reading
    [toolPath] of it throws), or a [toolPath] that
    [decodeURIComponent] refuses: the run is the authentication, the
    body parse and the [console.error], no module is loaded and the
    answer is the status-500 response for that error. *)
Theorem failure_before_loading
    (sv : Services) (request : Request) (d : Db)
    (authResponse : Response) (error : Thrown) :
  authMiddleware_outcome sv request = inr authResponse →
  status authResponse ≠ 401 →
  JSON_parse pf (body_text request) = inl error
  ∨ (∃ requestBody,
        JSON_parse pf (body_text request) = inr requestBody ∧
        (js_get requestBody "toolPath" = inl error
         ∨ ∃ rawToolPath,
             js_get requestBody "toolPath" = inr rawToolPath ∧
             decodeURIComponent pf rawToolPath = inl error)) →
  POST pf sv request (start d)
  = ({| trace := [EvAuthMiddleware request (inr authResponse);
                  EvRequestJson (JSON_parse pf (body_text request));
                  EvConsoleError "Error in Claude route:" error];
        db := d |},
     inr (error_response pf error)).
Proof.
  intros Hauth Hne Hfail. unfold_handler. rewrite Hauth; cbn.
  destruct (Z.eqb_spec (status authResponse) 401); [contradiction |]; cbn.
  destruct Hfail as [Hparse | (requestBody & Hparse & [Hget | (raw & Hget & Hdec)])].
  - rewrite Hparse; reflexivity.
  - rewrite Hparse; cbn. rewrite Hget; reflexivity.
  - rewrite Hparse; cbn. rewrite Hget; cbn. rewrite Hdec; reflexivity.
Qed.


(** X8. A module that loads but lacks its export ([toolConfig],
    [functionSchema] or [generatePrompt]) is not noticed at the import:
    the binding is [undefined].  The run still never reaches the
    model: it ends with a status-500 response and an untouched
    database. *)
Theorem missing_export_never_reaches_model
    (sv : Services) (request : Request) (d : Db) (st : St) (res : Completion Response)
    (dir : string) (m : Exports) :
  POST pf sv request (start d) = (st, res) →
  (EvImport ("@/app/" +:+ dir +:+ "/toolConfig") (inr m) ∈ trace st
   ∧ m !! "toolConfig" = None)
  ∨ (EvImport ("@/app/" +:+ dir +:+ "/schema") (inr m) ∈ trace st
     ∧ m !! "functionSchema" = None)
  ∨ (EvImport ("@/app/" +:+ dir +:+ "/prompt") (inr m) ∈ trace st
     ∧ m !! "generatePrompt" = None) →
  List.filter is_external_effect (trace st) = [] ∧
  db st = d ∧
  ∃ error, res = inr (error_response pf error).
Proof.
  intros Hrun. all_runs Hrun;
    intros [[Hin Hnone] | [[Hin Hnone] | [Hin Hnone]]];
    select_events Hin is_import; try discriminate Hin;
    try (other_module Hin); injection Hin as _ ->.
  all: first [ solve [repeat split; eexists; reflexivity] | export_is_missing ].
Qed.

(** X9. Logging.  [console.error] is the last thing a run does when it
    does it, its label is fixed and the response is the one for the
    value logged; every status-500 response has been logged this way.
    [console.log] is called exactly with the answer of a successful
    model invocation. *)
Theorem errors_and_answers_are_logged
    (sv : Services) (request : Request) (d : Db) (st : St) (res : Completion Response) :
  POST pf sv request (start d) = (st, res) →
  (∀ label error,
      EvConsoleError label error ∈ trace st →
      label = "Error in Claude route:" ∧
      res = inr (error_response pf error) ∧
      last (trace st) = Some (EvConsoleError label error)) ∧
  (∀ response,
      res = inr response → status response = 500 →
      ∃ error, EvConsoleError "Error in Claude route:" error ∈ trace st ∧
               response = error_response pf error) ∧
  (∀ label v,
      EvConsoleLog label v ∈ trace st
      ↔ label = "Response from Anthropic:" ∧
        ∃ call, EvInvoke call (inr v) ∈ trace st).
Proof.
  intros Hrun. all_runs Hrun.
  all: split; [| split].
  all: lazymatch goal with
       | |- ∀ label error, EvConsoleError _ _ ∈ _ → _ =>
           intros label error Hin; select_events Hin is_console_error;
           injection Hin as -> ->; repeat split
       | |- ∀ response, _ = inr response → _ =>
           intros response Hres H500; try discriminate Hres; injection Hres as <-;
           try congruence; try discriminate H500;
           eexists; split; first [reflexivity | solve [find_event]]
       | |- ∀ label v, _ ↔ _ =>
           intros label v; split;
           [ intros Hin; select_events Hin is_console_log; injection Hin as -> ->;
             split; first [reflexivity | solve [eexists; find_event]]
           | intros [-> [call Hin]]; select_events Hin is_invoke;
             try discriminate Hin; injection Hin as _ ->; find_event ]
       end.
Qed.

(** What a run that answers 200 has stored. *)
Lemma POST_200_stores_the_body
    (sv : Services) (request : Request) (d : Db) (st : St) (response : Response) :
  POST pf sv request (start d) = (st, inr response) →
  status response = 200 →
  ∃ (requestBody rawToolPath : JsVal) (dir : string) (m_config : Exports)
    (output toolPath aiModel : JsVal),
    JSON_parse pf (body_text request) = inr requestBody ∧
    js_get requestBody "toolPath" = inr rawToolPath ∧
    decodeURIComponent pf rawToolPath = inr dir ∧
    import pf ("@/app/" +:+ dir +:+ "/toolConfig") = inr m_config ∧
    js_get (export m_config "toolConfig") "toolPath" = inr toolPath ∧
    js_get (export m_config "toolConfig") "aiModel" = inr aiModel ∧
    generations (db st)
    = (generations d ++ [generation_row requestBody output toolPath aiModel])%list.
Proof.
  intros Hrun. all_returns Hrun; intros H200; try congruence; try discriminate H200.
  all: do 7 eexists; repeat (split; [eassumption || reflexivity |]); reflexivity.
Qed.

(** X10. The handler does not look for an earlier generation: the
    same request answered 200 twice, the second run starting from the
    database the first one left, has stored two rows, with the same
    input, tool path and model. *)
Theorem replayed_request_is_stored_twice
    (sv1 sv2 : Services) (request : Request) (d : Db) (st1 st2 : St)
    (response1 response2 : Response) :
  POST pf sv1 request (start d) = (st1, inr response1) →
  status response1 = 200 →
  POST pf sv2 request (start (db st1)) = (st2, inr response2) →
  status response2 = 200 →
  ∃ row1 row2,
    generations (db st2) = (generations d ++ [row1; row2])%list ∧
    gen_input row1 = gen_input row2 ∧
    gen_toolPath row1 = gen_toolPath row2 ∧
    gen_model row1 = gen_model row2.
Proof.
  intros Hrun1 H1 Hrun2 H2.
  destruct (POST_200_stores_the_body _ _ _ _ _ Hrun1 H1)
    as (b1 & raw1 & dir1 & m1 & o1 & tp1 & ai1 & Hb1 & Hraw1 & Hdir1 & Hm1 & Htp1 & Hai1 & Hg1).
  destruct (POST_200_stores_the_body _ _ _ _ _ Hrun2 H2)
    as (b2 & raw2 & dir2 & m2 & o2 & tp2 & ai2 & Hb2 & Hraw2 & Hdir2 & Hm2 & Htp2 & Hai2 & Hg2).
  rewrite Hb1 in Hb2. injection Hb2 as <-.
  rewrite Hraw1 in Hraw2. injection Hraw2 as <-.
  rewrite Hdir1 in Hdir2. injection Hdir2 as <-.
  rewrite Hm1 in Hm2. injection Hm2 as <-.
  rewrite Htp1 in Htp2. injection Htp2 as <-.
  rewrite Hai1 in Hai2. injection Hai2 as <-.
  exists (generation_row b1 o1 tp1 ai1), (generation_row b1 o2 tp1 ai1).
  split; [| repeat split].
  rewrite Hg2, Hg1, <- app_assoc. reflexivity.
Qed.


(** X11. The body is not validated: when it is an object without
    [email], a paywalled run still calls [reduceUserCredits], with
    [undefined] for the account, after the row has been stored. *)
Theorem missing_email_is_not_rejected
    (sv : Services) (request : Request) (d : Db) (st : St) (res : Completion Response)
    (props : list (string * JsVal)) (email credits : JsVal) (r : Completion unit) :
  POST pf sv request (start d) = (st, res) →
  JSON_parse pf (body_text request) = inr (JObj props) →
  assoc "email" props = None →
  EvReduceUserCredits email credits r ∈ trace st →
  email = JUndefined ∧
  r = reduceUserCredits_outcome sv JUndefined credits
        {| generations := generations (db st); debits := debits d |}.
Proof.
  intros Hrun Hbody Hnone. revert Hbody.
  all_runs Hrun; intros Hbody Hin; select_events Hin is_reduce;
    injection Hin as -> -> ->; injection Hbody as ->.
  all: match goal with
       | E : js_get (JObj _) "email" = inr _ |- _ =>
           unfold js_get in E; rewrite Hnone in E; injection E as <-
       end.
  all: split; [reflexivity |].
  all: match goal with
       | E : reduceUserCredits_outcome _ _ _ _ = _ |- _ => rewrite E
       end; reflexivity.
Qed.

End RouteMore.

(* ===================================================================== *)
(** * More about the page                                               *)
(* ===================================================================== *)

Section PageMore.



(** X14. The [metadata] export, of the page and of the grok layout
    alike, depends on [toolConfig.metadata] alone; it is defined exactly
    when that object is there, a field missing from it being
    [undefined], and it always has the same four-field shape. *)
Theorem metadata_reads_only_metadata (toolConfig : JsVal) (st : St) :
  (∀ toolConfig' st',
      js_get toolConfig "metadata" = js_get toolConfig' "metadata" →
      (metadata toolConfig st).2 = (metadata toolConfig' st').2) ∧
  ((∃ m, (metadata toolConfig st).2 = inr m)
   ↔ ∃ meta, js_get toolConfig "metadata" = inr meta
             ∧ meta ≠ JUndefined ∧ meta ≠ JNull) ∧
  (∀ m, (metadata toolConfig st).2 = inr m →
        ∃ title description og_image canonical,
          m = JObj [("title", title);
                    ("description", description);
                    ("openGraph", JObj [("images", JArr [og_image])]);
                    ("alternates", JObj [("canonical", canonical)])]).
Proof.
  split; [| split; [split |]].
  - intros toolConfig' st' H. unfold metadata, eval, bind, ret; cbn.
    rewrite H. repeat next_outcome; reflexivity.
  - intros [m Hm]. revert Hm. unfold metadata, eval, bind, ret; cbn.
    destruct (js_get toolConfig "metadata") as [t | meta] eqn:Hmeta; cbn;
      [discriminate |].
    destruct (js_get meta "title") as [t | title] eqn:Ht; cbn; [discriminate |].
    intros _. exists meta. split; [reflexivity |].
    apply (js_get_succeeds_iff meta "title"). eauto.
  - intros (meta & Hmeta & Hdef).
    destruct (proj2 (js_get_succeeds_iff meta "title") Hdef) as [title Ht].
    destruct (proj2 (js_get_succeeds_iff meta "description") Hdef) as [descr Hd].
    destruct (proj2 (js_get_succeeds_iff meta "og_image") Hdef) as [og Ho].
    destruct (proj2 (js_get_succeeds_iff meta "canonical") Hdef) as [canon Hcan].
    unfold metadata, eval, bind, ret; cbn.
    rewrite Hmeta; cbn. rewrite Ht; cbn. rewrite Hd; cbn. rewrite Ho; cbn.
    rewrite Hcan; cbn. eauto.
  - intros m. unfold metadata, eval, bind, ret; cbn.
    repeat next_outcome; intros H; try discriminate H; injection H as <-.
    do 4 eexists; reflexivity.
Qed.

End PageMore.

(* ===================================================================== *)
(** * The layout and the note box                                       *)
(* ===================================================================== *)

Section MarkupFacts.




End MarkupFacts.

(* ===================================================================== *)
(** * The variants of [Cases], run                                      *)
(* ===================================================================== *)

Lemma POST_rejects_exactly_when_auth_throws_witness :
  POST Demo.platform Cases.services_auth_down Demo.ada_claude (start Demo.empty_db)
  = ({| trace := [EvAuthMiddleware Demo.ada_claude
                    (inl (ErrorInstance (JStr "fetch failed")))];
        db := Demo.empty_db |},
     inl (ErrorInstance (JStr "fetch failed"))).
Proof.
  apply (proj2 (POST_rejects_exactly_when_auth_throws Demo.platform
                  Cases.services_auth_down Demo.ada_claude Demo.empty_db
                  (ErrorInstance (JStr "fetch failed")))).
  reflexivity.
Defined.

Lemma POST_status_is_401_200_or_500_witness :
  let response := {| status := 200; body := "{slug:steep-4f2a}" |} in
  (status response = 401 ∧
   authMiddleware_outcome Demo.services Demo.ada_claude = inr response ∧
   (POST Demo.platform Demo.services Demo.ada_claude (start Demo.empty_db)).1
   = {| trace := [EvAuthMiddleware Demo.ada_claude (inr response)];
        db := Demo.empty_db |})
  ∨ (status response = 200 ∧
     ∃ slug, response = NextResponse_json Demo.platform (JObj [("slug", slug)]) 200)
  ∨ (status response = 500 ∧ ∃ error, response = error_response Demo.platform error).
Proof.
  cbn zeta.
  apply (POST_status_is_401_200_or_500 Demo.platform Demo.services Demo.ada_claude
           Demo.empty_db).
  vm_compute. reflexivity.
Defined.


Lemma uploaded_row_provenance_witness :
  let run := POST Demo.platform Demo.services Demo.ada_claude (start Demo.empty_db) in
  ∃ (m_config : Exports) (call : ModelCall),
    import Demo.platform "@/app/(apps)/claude/toolConfig" = inr m_config ∧
    js_get (export m_config "toolConfig") "toolPath" = inr (JStr "(apps)/claude") ∧
    EvInvoke call (inr Demo.answer) ∈ trace run.1.
Proof.
  cbn zeta.
  destruct (uploaded_row_provenance Demo.platform Demo.services Demo.ada_claude
              Demo.empty_db _ _ Demo.claude_body Demo.answer
              (JStr "(apps)/claude") (JStr "claude-3-5-sonnet-20240620")
              (inr Demo.inserted) (surjective_pairing _))
    as (raw & dir & m & call & _ & Hraw & Hdir & Hm & Htp & _ & Hcall & _).
  - in_run.
  - injection Hraw as <-. injection Hdir as <-.
    exists m, call. auto.
Defined.

Lemma charge_survives_late_failure_witness :
  let run := POST Demo.platform Cases.services_no_rows Demo.ada_claude
               (start Demo.empty_db) in
  debits (db run.1) = [debit_row (JStr "ada@example.com") (JNum 5)] ∧
  ∃ error, run.2 = inr (error_response Demo.platform error).
Proof.
  cbn zeta.
  destruct (charge_survives_late_failure Demo.platform Cases.services_no_rows
              Demo.ada_claude Demo.empty_db _ _ (JStr "ada@example.com") (JNum 5)
              (surjective_pairing _))
    as (Hdebit & input & output & tp & ai & rows & Hup & _ & Hlate).
  - in_run.
  - split; [exact Hdebit |].
    assert (Hrows : rows = JArr []).
    { vm_compute in Hup. select_events Hup is_upload.
      injection Hup as _ _ _ _ ->. reflexivity. }
    subst rows. eexists. apply Hlate. right. exists JUndefined.
    split; reflexivity.
Defined.

Lemma import_failure_stops_the_run_witness :
  let run := POST Cases.platform_no_schema Demo.services Demo.ada_claude
               (start Demo.empty_db) in
  List.filter is_external_effect (trace run.1) = [] ∧
  db run.1 = Demo.empty_db ∧
  run.2 = inr (error_response Cases.platform_no_schema
                 (ErrorInstance (JStr "Cannot find module"))).
Proof.
  cbn zeta.
  refine (proj2 (import_failure_stops_the_run Cases.platform_no_schema Demo.services
                   Demo.ada_claude Demo.empty_db _ _ "@/app/(apps)/claude/schema"
                   (ErrorInstance (JStr "Cannot find module"))
                   (surjective_pairing _) _)).
  in_run.
Defined.

Lemma failure_before_loading_witness :
  POST Demo.platform Demo.services Cases.ada_null (start Demo.empty_db)
  = ({| trace := [EvAuthMiddleware Cases.ada_null (inr Cases.ok);
                  EvRequestJson (inr JNull);
                  EvConsoleError "Error in Claude route:"
                    (TypeError "Cannot read properties of null (reading 'toolPath')")];
        db := Demo.empty_db |},
     inr (error_response Demo.platform
            (TypeError "Cannot read properties of null (reading 'toolPath')"))).
Proof.
  apply (failure_before_loading Demo.platform Demo.services Cases.ada_null
           Demo.empty_db Cases.ok
           (TypeError "Cannot read properties of null (reading 'toolPath')")).
  - reflexivity.
  - cbn; lia.
  - right. exists JNull. split; [reflexivity |]. left. reflexivity.
Defined.

Lemma missing_export_never_reaches_model_witness :
  let run := POST Cases.platform_no_prompt Demo.services Demo.ada_claude
               (start Demo.empty_db) in
  List.filter is_external_effect (trace run.1) = [] ∧
  db run.1 = Demo.empty_db ∧
  ∃ error, run.2 = inr (error_response Cases.platform_no_prompt error).
Proof.
  cbn zeta.
  apply (missing_export_never_reaches_model Cases.platform_no_prompt Demo.services
           Demo.ada_claude Demo.empty_db _ _ "(apps)/claude" ∅ (surjective_pairing _)).
  right. right. split; [in_run | reflexivity].
Defined.

Lemma errors_and_answers_are_logged_witness :
  let run := POST Demo.platform Demo.services_no_model Demo.ada_claude
               (start Demo.empty_db) in
  let response := {| status := 500;
                     body := "{status:Error,message:An unknown error occurred}" |} in
  run.2 = inr response ∧
  ∃ error, EvConsoleError "Error in Claude route:" error ∈ trace run.1 ∧
           response = error_response Demo.platform error.
Proof.
  intros run response.
  destruct (errors_and_answers_are_logged Demo.platform Demo.services_no_model
              Demo.ada_claude Demo.empty_db run.1 run.2 (surjective_pairing run))
    as (_ & Hlogged & _).
  split; [reflexivity |].
  apply Hlogged; reflexivity.
Defined.

Lemma replayed_request_is_stored_twice_witness :
  let first := POST Demo.platform Demo.services Demo.ada_claude (start Demo.empty_db) in
  let second := POST Demo.platform Demo.services Demo.ada_claude (start (db first.1)) in
  ∃ row1 row2,
    generations (db second.1) = (generations Demo.empty_db ++ [row1; row2])%list ∧
    gen_input row1 = gen_input row2 ∧
    gen_toolPath row1 = gen_toolPath row2 ∧
    gen_model row1 = gen_model row2.
Proof.
  intros first second.
  apply (replayed_request_is_stored_twice Demo.platform Demo.services Demo.services
           Demo.ada_claude Demo.empty_db first.1 second.1
           {| status := 200; body := "{slug:steep-4f2a}" |}
           {| status := 200; body := "{slug:steep-4f2a}" |}).
  - vm_compute. reflexivity.
  - reflexivity.
  - vm_compute. reflexivity.
  - reflexivity.
Defined.

Lemma missing_email_is_not_rejected_witness :
  let run := POST Cases.platform_anonymous Demo.services Cases.ada_anonymous
               (start Demo.empty_db) in
  EvReduceUserCredits JUndefined (JNum 5) (inr tt) ∈ trace run.1 ∧
  run.2 = inr {| status := 200; body := "{slug:steep-4f2a}" |}.
Proof.
  cbn zeta.
  assert (Hin : EvReduceUserCredits JUndefined (JNum 5) (inr tt)
                ∈ trace (POST Cases.platform_anonymous Demo.services
                           Cases.ada_anonymous (start Demo.empty_db)).1) by in_run.
  destruct (missing_email_is_not_rejected Cases.platform_anonymous Demo.services
              Cases.ada_anonymous Demo.empty_db _ _
              [("toolPath", JStr "%28apps%29%2Fclaude"); ("idea", JStr "a tea shop")]
              JUndefined (JNum 5) (inr tt)
              (surjective_pairing _) eq_refl eq_refl Hin) as [_ _].
  split; [exact Hin | reflexivity].
Defined.



Lemma metadata_reads_only_metadata_witness :
  (∃ m, (metadata Demo.gpt_config (start Demo.empty_db)).2 = inr m) ∧
  ¬ (∃ m, (metadata Cases.gpt_config_no_metadata (start Demo.empty_db)).2 = inr m).
Proof.
  split.
  - apply (proj1 (proj2 (metadata_reads_only_metadata Demo.gpt_config
                           (start Demo.empty_db)))).
    eexists. split; [reflexivity |]. split; discriminate.
  - intros H.
    apply (proj1 (proj2 (metadata_reads_only_metadata Cases.gpt_config_no_metadata
                           (start Demo.empty_db)))) in H.
    destruct H as (meta & Hmeta & Hu & _). injection Hmeta as <-. congruence.
Defined.
